(** * vite-plugin-wp-hmr: the PHP generator [buildPhp]

    A shallow embedding of [buildPhp] from [src/index.ts] and the
    properties of the text it generates.

    Strings are Rocq strings, read as the UTF-8 bytes of the JavaScript
    strings of the source.  A template literal of the source becomes an
    append chain; [TAB], [LF] and [DQ] stand for the tab and line feed
    escapes and for the double quote.  The backslash is an ordinary
    character of a Rocq string, so the two characters written [\\n] in a
    template literal of the source are written [\n] here. *)

From Stdlib Require Import String Ascii List ZArith Bool Arith Lia.
From Stdlib Require Import Numbers.DecimalString Numbers.DecimalPos Numbers.DecimalZ.
Import ListNotations.
Open Scope string_scope.

(** ** Characters and strings of the platform *)

Definition TAB : string := String (ascii_of_nat 9) "".
Definition LF : string := String (ascii_of_nat 10) "".
Definition DQ : string := String (ascii_of_nat 34) "".

(** [Array.prototype.join] on an array of strings. *)
Fixpoint join (sep : string) (xs : list string) : string :=
  match xs with
  | [] => ""
  | [x] => x
  | x :: rest => x ++ sep ++ join sep rest
  end.

(** [Array.prototype.push], for a run of consecutive calls. *)
Definition push (lines items : list string) : list string := app lines items.
Arguments push lines items : clear scopes.

(** Append of lists, written apart from the append of strings. *)
Infix "+++" := app (right associativity, at level 60).

(** The string a template literal makes of an integral Number: its
    decimal digits, behind a minus sign when it is negative. *)
Definition number_to_string (n : Z) : string :=
  NilZero.string_of_int (Z.to_int n).

(** [Number.isSafeInteger]: the integers a Number holds exactly. *)
Definition is_safe_integer (n : Z) : bool :=
  (Z.abs n <=? 2 ^ 53 - 1)%Z.

(** ** The inputs *)

(** What the generator reads of a [URL] object: the protocol, the host
    name and the port.  The port of a URL is a number or is absent (a
    port that is the default of the scheme is absent too). *)
Record URL : Type := mkURL {
  protocol : string;
  hostname : string;
  port_number : option N
}.

(** The [port] getter: the decimal digits of the port, the empty string
    when the URL has none. *)
Definition port (url : URL) : string :=
  match port_number url with
  | Some n => NilZero.string_of_uint (N.to_uint n)
  | None => ""
  end.

(** [csp?: boolean | string] *)
Inductive CspOption : Type :=
| CspBool (b : bool)
| CspString (policy : string).

(** [interface WpHmrOptions]; an optional field that is left out is
    [None].  [cacheTtl] is a number of seconds, an integer. *)
Record WpHmrOptions : Type := mkOptions {
  outputDir : string;
  fileName : option string;
  devPatterns : option (list string);
  cssReloadEvents : option (list string);
  csp : option CspOption;
  cleanup : option bool;
  cacheTtl : option Z;
  origin : option string
}.

Definition DEFAULT_TLDS : list string := ["local"; "test"; "dev"].

Definition DEFAULT_POLICY : string :=
  "Content-Security-Policy: script-src * blob: 'unsafe-inline' 'unsafe-eval'; worker-src * blob:; connect-src * 'unsafe-inline';".

(** ** The generator *)

Section Generator.

(** The [URL] constructor of the platform: [None] when it throws. *)
Variable new_URL : string -> option URL.

(** [url.port || (url.protocol === 'https:' ? '443' : '80')] *)
Definition resolved_port (url : URL) : string :=
  if (port url =? "")%string
  then (if (protocol url =? "https:")%string then "443" else "80")
  else port url.

(** The five lines one pass of the [for ... of] loop pushes. *)
Definition push_listener (lines : list string) (event : string) : list string :=
  push lines
  [ TAB ++ TAB ++ "echo 'hot.on(" ++ DQ ++ event ++ DQ ++ ", () => {' . " ++ DQ ++ "\n" ++ DQ ++ ";";
    TAB ++ TAB ++ "echo '  document.querySelectorAll(" ++ DQ ++ "link[rel=stylesheet]" ++ DQ ++ ").forEach(l => {' . " ++ DQ ++ "\n" ++ DQ ++ ";";
    TAB ++ TAB ++ "echo '    const u = new URL(l.href); u.searchParams.set(" ++ DQ ++ "t" ++ DQ ++ ", Date.now()); l.href = u.toString();' . " ++ DQ ++ "\n" ++ DQ ++ ";";
    TAB ++ TAB ++ "echo '  });' . " ++ DQ ++ "\n" ++ DQ ++ ";";
    TAB ++ TAB ++ "echo '});' . " ++ DQ ++ "\n" ++ DQ ++ ";" ].

(** The array [lines] just before [lines.join]. *)
Definition buildLines (origin : string) (url : URL) (options : WpHmrOptions)
  : list string :=
  let host := hostname url in
  let port := resolved_port url in
  let cacheTtl := match cacheTtl options with Some n => n | None => 5%Z end in

  let extraTlds := match devPatterns options with Some l => l | None => [] end in
  let allTlds := DEFAULT_TLDS +++ extraTlds in
  let tldList := join ", " (map (fun t => "'" ++ t ++ "'") allTlds) in

  let lines : list string := [] in

  (* Header *)
  let lines := push lines
    [ "<?php";
      "/**";
      " * Plugin Name: Vite HMR";
      " * Description: Injects Vite dev client for live reload. Auto-generated â€” do not edit.";
      " */";
      "" ] in

  (* Dev detection *)
  let lines := push lines
    [ "if ( ! function_exists( 'vite_hmr_is_dev' ) ) {";
      TAB ++ "function vite_hmr_is_dev(): bool {";
      TAB ++ TAB ++ "$host = $_SERVER['HTTP_HOST'] ?? '';";
      TAB ++ TAB ++ "if ( $host === 'localhost' || $host === '127.0.0.1' ) { return true; }";
      TAB ++ TAB ++ "foreach ( [ " ++ tldList ++ " ] as $tld ) {";
      TAB ++ TAB ++ TAB ++ "if ( preg_match( '/\\.' . $tld . '$/i', $host ) ) { return true; }";
      TAB ++ TAB ++ "}";
      TAB ++ TAB ++ "return false;";
      TAB ++ "}";
      "}";
      "" ] in

  (* Port probe *)
  let lines := push lines
    [ "if ( ! function_exists( 'vite_hmr_is_running' ) ) {";
      TAB ++ "function vite_hmr_is_running(): bool {";
      TAB ++ TAB ++ "$key    = 'vite_hmr_" ++ port ++ "';";
      TAB ++ TAB ++ "$cached = get_transient( $key );";
      TAB ++ TAB ++ "if ( $cached !== false ) { return (bool) $cached; }";
      TAB ++ TAB ++ "$conn   = @fsockopen( '" ++ host ++ "', " ++ port ++ ", $errno, $errstr, 1 );";
      TAB ++ TAB ++ "$result = is_resource( $conn );";
      TAB ++ TAB ++ "if ( $result ) { fclose( $conn ); }";
      TAB ++ TAB ++ "set_transient( $key, (int) $result, " ++ number_to_string cacheTtl ++ " );";
      TAB ++ TAB ++ "return $result;";
      TAB ++ "}";
      "}";
      "" ] in

  (* Client injection *)
  let lines := push lines
    [ "if ( ! function_exists( 'vite_hmr_inject' ) ) {";
      TAB ++ "function vite_hmr_inject(): void {";
      TAB ++ TAB ++ "if ( ! vite_hmr_is_dev() || ! vite_hmr_is_running() ) { return; }";
      TAB ++ TAB ++ "echo '<script type=" ++ DQ ++ "module" ++ DQ ++ " src=" ++ DQ ++ origin ++ "/@vite/client" ++ DQ ++ "></script>' . " ++ DQ ++ "\n" ++ DQ ++ ";" ] in

  let lines :=
    match cssReloadEvents options with
    | Some ((_ :: _) as events) =>
        let lines := push lines
          [ TAB ++ TAB ++ "echo '<script type=" ++ DQ ++ "module" ++ DQ ++ ">' . " ++ DQ ++ "\n" ++ DQ ++ ";";
            TAB ++ TAB ++ "echo 'import { createHotContext } from " ++ DQ ++ origin ++ "/@vite/client" ++ DQ ++ ";' . " ++ DQ ++ "\n" ++ DQ ++ ";";
            TAB ++ TAB ++ "echo 'const hot = createHotContext(" ++ DQ ++ "/wp-hmr" ++ DQ ++ ");' . " ++ DQ ++ "\n" ++ DQ ++ ";" ] in
        let lines := fold_left push_listener events lines in
        push lines
          [ TAB ++ TAB ++ "echo '</script>' . " ++ DQ ++ "\n" ++ DQ ++ ";" ]
    | _ => lines
    end in

  let lines := push lines
    [ TAB ++ "}";
      "}";
      "add_action( 'wp_head', 'vite_hmr_inject', 1 );";
      "" ] in

  (* CSP *)
  let lines :=
    match csp options with
    | Some (CspBool false) => lines
    | c =>
        let policy :=
          match c with
          | Some (CspString s) => s
          | _ => DEFAULT_POLICY
          end in
        push lines
          [ "if ( ! function_exists( 'vite_hmr_csp' ) ) {";
            TAB ++ "function vite_hmr_csp(): void {";
            TAB ++ TAB ++ "if ( ! vite_hmr_is_dev() ) { return; }";
            TAB ++ TAB ++ "header( " ++ DQ ++ policy ++ DQ ++ " );";
            TAB ++ "}";
            "}";
            "add_action( 'send_headers', 'vite_hmr_csp', 1 );";
            "" ]
    end in

  lines.

(** [buildPhp]: [None] stands for the exception of [new URL(origin)],
    the only call of the function that can throw. *)
Definition buildPhp (origin : string) (options : WpHmrOptions) : option string :=
  match new_URL origin with
  | None => None
  | Some url => Some (join LF (buildLines origin url options))
  end.

End Generator.

(** ** What the options resolve to *)

Definition patterns_of (options : WpHmrOptions) : list string :=
  match devPatterns options with Some l => l | None => [] end.

Definition events_of (options : WpHmrOptions) : list string :=
  match cssReloadEvents options with Some l => l | None => [] end.

Definition ttl_of (options : WpHmrOptions) : Z :=
  match cacheTtl options with Some n => n | None => 5%Z end.

(** The policy that is emitted, [None] when [csp === false]. *)
Definition policy_of (options : WpHmrOptions) : option string :=
  match csp options with
  | Some (CspBool false) => None
  | Some (CspString s) => Some s
  | _ => Some DEFAULT_POLICY
  end.

(** The text of the pattern list inside the [foreach]. *)
Definition tld_list (patterns : list string) : string :=
  join ", " (map (fun t => "'" ++ t ++ "'") patterns).

(** ** Observing the generated text *)

Definition chars : string -> list ascii := list_ascii_of_string.

Fixpoint prefixL (n s : list ascii) : bool :=
  match n, s with
  | [], _ => true
  | _ :: _, [] => false
  | a :: n', b :: s' => Ascii.eqb a b && prefixL n' s'
  end.

(** The number of places of [s] at which [n] starts. *)
Fixpoint countL (n s : list ascii) : nat :=
  match s with
  | [] => 0
  | _ :: s' => (if prefixL n s then 1 else 0) + countL n s'
  end.

Definition count_occurrences (needle s : string) : nat :=
  countL (chars needle) (chars s).

(** [String.prototype.includes], which is what [toContain] of the test
    suite checks on a string. *)
Definition includes (s needle : string) : bool :=
  match needle with
  | "" => true
  | _ => negb (Nat.eqb (count_occurrences needle s) 0)
  end.

(** The values the generator interpolates as they come: the origin, the
    host name, the patterns, the event names and the policy. *)
Definition interpolated (origin : string) (url : URL) (options : WpHmrOptions)
  : list string :=
  origin :: hostname url :: patterns_of options +++ events_of options +++
  match csp options with Some (CspString s) => [s] | _ => [] end.

(** None of the values contains the needle. *)
Definition free_of (needle : string) (values : list string) : bool :=
  forallb (fun v => negb (includes v needle)) values.

(** The characters [0] to [9]. *)
Definition is_digit (c : ascii) : bool :=
  Nat.leb 48 (nat_of_ascii c) && Nat.leb (nat_of_ascii c) 57.

(** ** The fragments of the generated script *)

Definition header_lines : list string :=
  [ "<?php";
    "/**";
    " * Plugin Name: Vite HMR";
    " * Description: Injects Vite dev client for live reload. Auto-generated â€” do not edit.";
    " */";
    "" ].

(** A function definition inside its existence guard. *)
Definition guarded (name ret : string) (body : list string) : list string :=
  [ "if ( ! function_exists( '" ++ name ++ "' ) ) {";
    TAB ++ "function " ++ name ++ "(): " ++ ret ++ " {" ] +++
  body +++
  [ TAB ++ "}";
    "}" ].

Definition detector_body (tldList : string) : list string :=
  [ TAB ++ TAB ++ "$host = $_SERVER['HTTP_HOST'] ?? '';";
    TAB ++ TAB ++ "if ( $host === 'localhost' || $host === '127.0.0.1' ) { return true; }";
    TAB ++ TAB ++ "foreach ( [ " ++ tldList ++ " ] as $tld ) {";
    TAB ++ TAB ++ TAB ++ "if ( preg_match( '/\\.' . $tld . '$/i', $host ) ) { return true; }";
    TAB ++ TAB ++ "}";
    TAB ++ TAB ++ "return false;" ].

Definition probe_body (host port ttl : string) : list string :=
  [ TAB ++ TAB ++ "$key    = 'vite_hmr_" ++ port ++ "';";
    TAB ++ TAB ++ "$cached = get_transient( $key );";
    TAB ++ TAB ++ "if ( $cached !== false ) { return (bool) $cached; }";
    TAB ++ TAB ++ "$conn   = @fsockopen( '" ++ host ++ "', " ++ port ++ ", $errno, $errstr, 1 );";
    TAB ++ TAB ++ "$result = is_resource( $conn );";
    TAB ++ TAB ++ "if ( $result ) { fclose( $conn ); }";
    TAB ++ TAB ++ "set_transient( $key, (int) $result, " ++ ttl ++ " );";
    TAB ++ TAB ++ "return $result;" ].

(** The listener of one event. *)
Definition listener (event : string) : list string :=
  push_listener [] event.

(** The statement that opens the hot context. *)
Definition hot_context_statement : string :=
  TAB ++ TAB ++ "echo 'const hot = createHotContext(" ++ DQ ++ "/wp-hmr" ++ DQ ++ ");' . " ++ DQ ++ "\n" ++ DQ ++ ";".

(** The second script: the import, the hot context and the listeners. *)
Definition subscription_block (origin : string) (events : list string) : list string :=
  ([ TAB ++ TAB ++ "echo '<script type=" ++ DQ ++ "module" ++ DQ ++ ">' . " ++ DQ ++ "\n" ++ DQ ++ ";";
     TAB ++ TAB ++ "echo 'import { createHotContext } from " ++ DQ ++ origin ++ "/@vite/client" ++ DQ ++ ";' . " ++ DQ ++ "\n" ++ DQ ++ ";";
     hot_context_statement ] +++
   flat_map listener events +++
   [ TAB ++ TAB ++ "echo '</script>' . " ++ DQ ++ "\n" ++ DQ ++ ";" ]).

Definition injector_body (origin : string) (events : list string) : list string :=
  ([ TAB ++ TAB ++ "if ( ! vite_hmr_is_dev() || ! vite_hmr_is_running() ) { return; }";
     TAB ++ TAB ++ "echo '<script type=" ++ DQ ++ "module" ++ DQ ++ " src=" ++ DQ ++ origin ++ "/@vite/client" ++ DQ ++ "></script>' . " ++ DQ ++ "\n" ++ DQ ++ ";" ] +++
   match events with
   | [] => []
   | _ :: _ => subscription_block origin events
   end).

Definition policy_body (policy : string) : list string :=
  [ TAB ++ TAB ++ "if ( ! vite_hmr_is_dev() ) { return; }";
    TAB ++ TAB ++ "header( " ++ DQ ++ policy ++ DQ ++ " );" ].

Definition INJECT_REGISTRATION : string :=
  "add_action( 'wp_head', 'vite_hmr_inject', 1 );".

Definition POLICY_REGISTRATION : string :=
  "add_action( 'send_headers', 'vite_hmr_csp', 1 );".

Definition detector_fragment (options : WpHmrOptions) : list string :=
  guarded "vite_hmr_is_dev" "bool"
    (detector_body (tld_list (DEFAULT_TLDS +++ patterns_of options))) +++ [""].

Definition probe_fragment (url : URL) (options : WpHmrOptions) : list string :=
  guarded "vite_hmr_is_running" "bool"
    (probe_body (hostname url) (resolved_port url)
       (number_to_string (ttl_of options))) +++ [""].

Definition injector_fragment (origin : string) (options : WpHmrOptions) : list string :=
  guarded "vite_hmr_inject" "void" (injector_body origin (events_of options)) +++
  [INJECT_REGISTRATION; ""].

Definition policy_fragment (policy : string) : list string :=
  guarded "vite_hmr_csp" "void" (policy_body policy) +++
  [POLICY_REGISTRATION; ""].

(** The fragments in the order of the output; the policy fragment is
    there unless [csp === false]. *)
Definition fragments (origin : string) (url : URL) (options : WpHmrOptions)
  : list (list string) :=
  ([ header_lines;
     detector_fragment options;
     probe_fragment url options;
     injector_fragment origin options ] +++
   match policy_of options with
   | Some policy => [policy_fragment policy]
   | None => []
   end).

(** ** Sample inputs *)

(** The [URL] objects of a few origins, those of the test suite among
    them; the closed examples below need no other. *)
Definition test_URL (origin : string) : option URL :=
  if (origin =? "http://localhost:5173")%string
  then Some (mkURL "http:" "localhost" (Some 5173%N))
  else if (origin =? "https://mysite.local:3000")%string
  then Some (mkURL "https:" "mysite.local" (Some 3000%N))
  else if (origin =? "https://mysite.local")%string
  then Some (mkURL "https:" "mysite.local" None)
  else if (origin =? "http://mysite.local")%string
  then Some (mkURL "http:" "mysite.local" None)
  else None.

(** [opts()] of the test suite. *)
Definition opts : WpHmrOptions :=
  mkOptions "/tmp/mu-plugins" None None None None None None None.

Definition with_devPatterns (l : list string) (o : WpHmrOptions) : WpHmrOptions :=
  mkOptions (outputDir o) (fileName o) (Some l) (cssReloadEvents o) (csp o)
    (cleanup o) (cacheTtl o) (origin o).

Definition with_cssReloadEvents (l : list string) (o : WpHmrOptions) : WpHmrOptions :=
  mkOptions (outputDir o) (fileName o) (devPatterns o) (Some l) (csp o)
    (cleanup o) (cacheTtl o) (origin o).

Definition with_csp (c : CspOption) (o : WpHmrOptions) : WpHmrOptions :=
  mkOptions (outputDir o) (fileName o) (devPatterns o) (cssReloadEvents o) (Some c)
    (cleanup o) (cacheTtl o) (origin o).

Definition with_cacheTtl (n : Z) (o : WpHmrOptions) : WpHmrOptions :=
  mkOptions (outputDir o) (fileName o) (devPatterns o) (cssReloadEvents o) (csp o)
    (cleanup o) (Some n) (origin o).

(** ** Occurrences across a seam

    The output is fixed text with interpolated values in between.  To
    count a needle in it, the fixed texts are checked once, by
    computation: an occurrence that lies partly inside a fixed text lies
    wholly inside it.  The occurrences of the output are then those
    inside the values and those inside the fixed texts. *)

(** [n] has an occurrence in [a ++ b] that lies across the seam. *)
Definition straddles (n a b : list ascii) : Prop :=
  exists n1 n2 x y,
    n = n1 +++ n2 /\ n1 <> [] /\ n2 <> [] /\ a = x +++ n1 /\ b = n2 +++ y.

(** One of the two is a prefix of the other. *)
Definition compatL (a b : list ascii) : bool := prefixL a b || prefixL b a.

(** No suffix of [n2], the empty one apart, is compatible with [b]. *)
Fixpoint no_suffix_into (n2 b : list ascii) : bool :=
  match n2 with
  | [] => true
  | _ :: n2' => negb (compatL n2 b) && no_suffix_into n2' b
  end.

(** No occurrence of [n] that starts before [b] reaches into [b]: no
    suffix of [n], the whole of it and the empty one apart, is
    compatible with [b]. *)
Definition tight_left (n b : list ascii) : bool :=
  match n with
  | [] => true
  | _ :: n' => no_suffix_into n' b
  end.

(** No occurrence of [n] that starts inside [b] reaches beyond [b]. *)
Definition tight_right (n b : list ascii) : bool :=
  tight_left (rev n) (rev b).

(** No occurrence of [n] lies across the seam between [v] and [b],
    whatever follows [b]. *)
Definition seam_free (n v b : list ascii) : Prop :=
  forall y, ~ straddles n v (b +++ y).

(** A template: interpolated values, each followed by the fixed text up
    to the next one.  A line without a value has the empty value. *)
Definition piece : Type := (string * string)%type.

Definition is_empty (s : string) : bool :=
  match s with "" => true | _ => false end.

(** The check of one piece: the needle cannot enter the fixed text from
    the value, unless the value is empty, and cannot leave it. *)
Definition piece_tight (needle : string) (p : piece) : bool :=
  (tight_left (chars needle) (chars (snd p)) || is_empty (fst p)) &&
  tight_right (chars needle) (chars (snd p)).

(** What the check is for: no occurrence lies across the seam between
    the value and its fixed text, nor across the end of the fixed
    text. *)
Definition sound_piece (needle : string) (p : piece) : Prop :=
  seam_free (chars needle) (chars (fst p)) (chars (snd p)) /\
  tight_right (chars needle) (chars (snd p)) = true.

(** The text of a template. *)
Definition render (t : list piece) : string :=
  fold_right (fun p acc => fst p ++ snd p ++ acc) "" t.

Definition holes (t : list piece) : list string := map fst t.
Definition literals (t : list piece) : list string := map snd t.

(** The occurrences of a needle inside the strings of a list. *)
Definition total (needle : string) (xs : list string) : nat :=
  list_sum (map (count_occurrences needle) xs).

(** ** The generated text as a template *)

(** The lines, each one ended by a line feed. *)
Definition unlines (ls : list string) : string :=
  fold_right (fun l acc => l ++ LF ++ acc) "" ls.

(** Lines without an interpolated value. *)
Definition fixed_lines (ls : list string) : list piece :=
  map (fun l => ("", l ++ LF)) ls.

(** The quoted patterns after the opening quote of the first. *)
Fixpoint tld_template (ts : list string) (closing : string) : list piece :=
  match ts with
  | [] => []
  | [t] => [(t, "'" ++ closing)]
  | t :: rest => (t, "', '") :: tld_template rest closing
  end.

Definition detector_template (patterns : list string) : list piece :=
  fixed_lines
    [ "if ( ! function_exists( 'vite_hmr_is_dev' ) ) {";
      TAB ++ "function vite_hmr_is_dev(): bool {";
      TAB ++ TAB ++ "$host = $_SERVER['HTTP_HOST'] ?? '';";
      TAB ++ TAB ++ "if ( $host === 'localhost' || $host === '127.0.0.1' ) { return true; }" ] +++
  ("", TAB ++ TAB ++ "foreach ( [ '") ::
  tld_template (DEFAULT_TLDS +++ patterns) (" ] as $tld ) {" ++ LF) +++
  fixed_lines
    [ TAB ++ TAB ++ TAB ++ "if ( preg_match( '/\\.' . $tld . '$/i', $host ) ) { return true; }";
      TAB ++ TAB ++ "}";
      TAB ++ TAB ++ "return false;";
      TAB ++ "}";
      "}";
      "" ].

(** The cache key is one value of the template: it is the port behind a
    fixed prefix. *)
Definition key_piece (port : string) : piece :=
  ("vite_hmr_" ++ port, "';" ++ LF).

Definition probe_head : list piece :=
  fixed_lines
    [ "if ( ! function_exists( 'vite_hmr_is_running' ) ) {";
      TAB ++ "function vite_hmr_is_running(): bool {" ] +++
  [ ("", TAB ++ TAB ++ "$key    = '") ].

Definition probe_rest (host port ttl : string) : list piece :=
  fixed_lines
    [ TAB ++ TAB ++ "$cached = get_transient( $key );";
      TAB ++ TAB ++ "if ( $cached !== false ) { return (bool) $cached; }" ] +++
  [ ("", TAB ++ TAB ++ "$conn   = @fsockopen( '");
    (host, "', ");
    (port, ", $errno, $errstr, 1 );" ++ LF) ] +++
  fixed_lines
    [ TAB ++ TAB ++ "$result = is_resource( $conn );";
      TAB ++ TAB ++ "if ( $result ) { fclose( $conn ); }" ] +++
  [ ("", TAB ++ TAB ++ "set_transient( $key, (int) $result, ");
    (ttl, " );" ++ LF) ] +++
  fixed_lines
    [ TAB ++ TAB ++ "return $result;";
      TAB ++ "}";
      "}";
      "" ].

Definition probe_template (host port ttl : string) : list piece :=
  probe_head +++ key_piece port :: probe_rest host port ttl.

Definition listener_template (event : string) : list piece :=
  ("", TAB ++ TAB ++ "echo 'hot.on(" ++ DQ) ::
  (event, DQ ++ ", () => {' . " ++ DQ ++ "\n" ++ DQ ++ ";" ++ LF) ::
  fixed_lines (tl (listener event)).

Definition subscription_template (origin : string) (events : list string) : list piece :=
  fixed_lines
    [ TAB ++ TAB ++ "echo '<script type=" ++ DQ ++ "module" ++ DQ ++ ">' . " ++ DQ ++ "\n" ++ DQ ++ ";" ] +++
  [ ("", TAB ++ TAB ++ "echo 'import { createHotContext } from " ++ DQ);
    (origin, "/@vite/client" ++ DQ ++ ";' . " ++ DQ ++ "\n" ++ DQ ++ ";" ++ LF) ] +++
  fixed_lines [ hot_context_statement ] +++
  flat_map listener_template events +++
  fixed_lines [ TAB ++ TAB ++ "echo '</script>' . " ++ DQ ++ "\n" ++ DQ ++ ";" ].

Definition injector_template (origin : string) (events : list string) : list piece :=
  fixed_lines
    [ "if ( ! function_exists( 'vite_hmr_inject' ) ) {";
      TAB ++ "function vite_hmr_inject(): void {";
      TAB ++ TAB ++ "if ( ! vite_hmr_is_dev() || ! vite_hmr_is_running() ) { return; }" ] +++
  [ ("", TAB ++ TAB ++ "echo '<script type=" ++ DQ ++ "module" ++ DQ ++ " src=" ++ DQ);
    (origin, "/@vite/client" ++ DQ ++ "></script>' . " ++ DQ ++ "\n" ++ DQ ++ ";" ++ LF) ] +++
  match events with
  | [] => []
  | _ :: _ => subscription_template origin events
  end +++
  fixed_lines
    [ TAB ++ "}";
      "}";
      INJECT_REGISTRATION ].

Definition policy_template (policy : option string) : list piece :=
  match policy with
  | None => []
  | Some p =>
      fixed_lines
        [ "";
          "if ( ! function_exists( 'vite_hmr_csp' ) ) {";
          TAB ++ "function vite_hmr_csp(): void {";
          TAB ++ TAB ++ "if ( ! vite_hmr_is_dev() ) { return; }" ] +++
      [ ("", TAB ++ TAB ++ "header( " ++ DQ);
        (p, DQ ++ " );" ++ LF) ] +++
      fixed_lines
        [ TAB ++ "}";
          "}";
          POLICY_REGISTRATION ]
  end.

Definition template (origin : string) (url : URL) (options : WpHmrOptions)
  : list piece :=
  fixed_lines header_lines +++
  detector_template (patterns_of options) +++
  probe_template (hostname url) (resolved_port url)
    (number_to_string (ttl_of options)) +++
  injector_template origin (events_of options) +++
  policy_template (policy_of options).

(** ** Needles the template can be counted for *)

(** Every piece of a template but the cache key, with a value standing
    where a piece can have one. *)
Definition SHAPES : list piece :=
  fixed_lines header_lines +++
  detector_template ["x"] +++
  probe_head +++
  probe_rest "x" "x" "x" +++
  injector_template "x" ["x"] +++
  policy_template (Some "x").

(** [p] has the fixed text of [shape], and a value only if [shape] has. *)
Definition covers (shape p : piece) : bool :=
  String.eqb (snd shape) (snd p) &&
  (negb (is_empty (fst shape)) || is_empty (fst p)).

Definition covered (p : piece) : bool :=
  existsb (fun shape => covers shape p) SHAPES.

Definition no_digit (needle : string) : bool :=
  forallb (fun c => negb (is_digit c)) (chars needle).

(** The characters of a port, of a cache key and of a printed integer. *)
Definition plain_char (c : ascii) : bool :=
  is_digit c || existsb (Ascii.eqb c) (chars "vite_hmr_-").

(** The needle has a character that none of those values has. *)
Definition fresh (needle : string) : bool :=
  existsb (fun c => negb (plain_char c)) (chars needle).

Definition needle_ok (needle : string) : bool :=
  forallb (piece_tight needle) SHAPES &&
  tight_right (chars needle) (chars (snd (key_piece ""))) &&
  (tight_left (chars needle) (chars (snd (key_piece ""))) || no_digit needle) &&
  fresh needle &&
  free_of needle DEFAULT_TLDS.

(** The occurrences of a needle in the fixed text: of the output without
    pattern, event and policy, of the separator of two patterns, of the
    subscription block without listener, of one listener and of the
    policy fragment. *)
Definition fixed_count (needle : string) : nat :=
  total needle
    (literals (fixed_lines header_lines +++ detector_template [] +++
               probe_template "" "" "" +++ injector_template "" [])).

Definition separator_count (needle : string) : nat :=
  count_occurrences needle "', '".

Definition subscription_count (needle : string) : nat :=
  total needle (literals (subscription_template "" [])).

Definition listener_count (needle : string) : nat :=
  total needle (literals (listener_template "")).

Definition policy_count (needle : string) : nat :=
  total needle (literals (policy_template (Some ""))).

(** The occurrences of a needle in the output, when no interpolated
    value holds one: those of the fixed text, and those of the default
    policy when that is the policy emitted. *)
Definition expected_count (needle : string) (options : WpHmrOptions) : nat :=
  fixed_count needle +
  length (patterns_of options) * separator_count needle +
  match events_of options with
  | [] => 0
  | _ :: _ =>
      subscription_count needle +
      length (events_of options) * listener_count needle
  end +
  match policy_of options with
  | None => 0
  | Some _ => policy_count needle
  end +
  match csp options with
  | Some (CspBool false) | Some (CspString _) => 0
  | _ => count_occurrences needle DEFAULT_POLICY
  end.

(** Reading a decimal literal back. *)
Definition parse_number (s : string) : option Z :=
  option_map Z.of_int (NilZero.int_of_string s).

(** The key of the cache entry, as the probe writes it. *)
Definition cache_key (port : string) : string := "vite_hmr_" ++ port.

(** The opening line of the existence guard of a function. *)
Definition guard_of (name : string) : string :=
  "if ( ! function_exists( '" ++ name ++ "' ) ) {".

(** No interpolated value contains the needle. *)
Definition inputs_free_of (needle origin : string) (url : URL)
    (options : WpHmrOptions) : bool :=
  free_of needle (interpolated origin url options).

(** A pattern without a single quote. *)
Definition no_quote (s : string) : bool :=
  forallb (fun c => negb (Ascii.eqb c "'")) (chars s).

(** The [URL] object of [http://localhost:5173]. *)
Definition localhost_5173 : URL := mkURL "http:" "localhost" (Some 5173%N).

(** The [URL] object of [https://mysite.local]. *)
Definition mysite_local : URL := mkURL "https:" "mysite.local" None.


(** The string [buildPhp] returns for an origin of the test suite. *)
Definition php_of (origin : string) (options : WpHmrOptions) : string :=
  match buildPhp test_URL origin options with
  | Some php => php
  | None => ""
  end.

(** ** More observations of a text *)

(** [String.prototype.startsWith] and [String.prototype.endsWith]. *)
Definition starts_with (s p : string) : bool :=
  prefixL (chars p) (chars s).

Definition ends_with (s p : string) : bool :=
  prefixL (rev (chars p)) (rev (chars s)).

(** Options that spell out every default, with other values for the
    options [buildPhp] does not read. *)
Definition explicit_defaults : WpHmrOptions :=
  mkOptions "/var/www/mu-plugins" (Some "hmr.php") (Some []) (Some [])
    (Some (CspBool true)) (Some false) (Some 5%Z) (Some "https://example.test").

(** ** The plugin [wpHmr] *)

(** What [configResolved] reads of the resolved configuration:
    whether [config.server.https] is set, and [config.server.port]. *)
Record ResolvedConfig : Type := mkConfig {
  server_https : bool;
  server_port : option Z
}.

(** The origin [configResolved] assigns: the [origin] option unless it
    is absent or the empty string, which is falsy as well. *)
Definition configResolved (options : WpHmrOptions) (config : ResolvedConfig) : string :=
  let detected :=
    let protocol := if server_https config then "https" else "http" in
    let port := match server_port config with Some p => p | None => 5173%Z end in
    protocol ++ "://localhost:" ++ number_to_string port in
  match origin options with
  | Some o => if is_empty o then detected else o
  | None => detected
  end.

(** The variable [origin] of the closure as [buildPhp] reads it: as long
    as nothing was assigned to it, [new URL] and the template literals
    see the string of [undefined]. *)
Definition origin_argument (assigned : option string) : string :=
  match assigned with
  | Some o => o
  | None => "undefined"
  end.

(** A call that returns or throws. *)
Inductive completion (A : Type) : Type :=
| Returns (a : A)
| Throws.
Arguments Returns {A} a.
Arguments Throws {A}.

Section Plugin.

Variable new_URL : string -> option URL.

(** The file system of the platform and [path.join].  A call of
    [fs-extra] leaves a file system and has returned ([true]) or thrown
    ([false]). *)
Variable FS : Type.
Variable path_join : string -> string -> string.
Variable mkdirpSync : string -> FS -> FS * bool.
Variable writeFileSync : string -> string -> FS -> FS * bool.
Variable removeSync : string -> FS -> FS * bool.

(** The development server: the listeners of [close] of its HTTP
    server, in the order of their registration; there is no HTTP server
    in middleware mode. *)
Record ViteDevServer : Type := mkServer {
  httpServer : option (list (FS -> FS))
}.

(** [options.fileName ?? 'vite-hmr.php'], joined to [outputDir]. *)
Definition phpFile_of (options : WpHmrOptions) : string :=
  let fileName := match fileName options with Some f => f | None => "vite-hmr.php" end in
  path_join (outputDir options) fileName.

(** The listener of [close]: what [removeSync] throws is caught. *)
Definition remove_on_close (phpFile : string) (fs : FS) : FS :=
  fst (removeSync phpFile fs).

(** [configureServer], from the value of the variable [origin], the
    server and the file system to the file system it leaves and the
    server with its listeners, unless it throws. *)
Definition configureServer (assigned : option string) (options : WpHmrOptions)
    (server : ViteDevServer) (fs : FS) : FS * completion ViteDevServer :=
  let phpFile := phpFile_of options in
  match buildPhp new_URL (origin_argument assigned) options with
  | None => (fs, Throws)
  | Some php =>
      let (fs, made) := mkdirpSync (outputDir options) fs in
      if negb made then (fs, Throws) else
      let (fs, written) := writeFileSync phpFile php fs in
      if negb written then (fs, Throws) else
      match cleanup options with
      | Some false => (fs, Returns server)
      | _ =>
          match httpServer server with
          | Some listeners =>
              (fs, Returns (mkServer (Some (listeners +++ [remove_on_close phpFile]))))
          | None => (fs, Returns server)
          end
      end
  end.

(** The server as [configureServer] leaves it: with the listener that
    removes the file, unless [cleanup === false] or there is no HTTP
    server. *)
Definition server_after (options : WpHmrOptions) (server : ViteDevServer)
  : ViteDevServer :=
  match cleanup options, httpServer server with
  | Some false, _ => server
  | _, Some listeners =>
      mkServer (Some (listeners +++ [remove_on_close (phpFile_of options)]))
  | _, None => server
  end.

(** The HTTP server closes: its listeners run in their order. *)
Definition close (server : ViteDevServer) (fs : FS) : FS :=
  match httpServer server with
  | Some listeners => fold_left (fun fs listener => listener fs) listeners fs
  | None => fs
  end.

End Plugin.

Arguments mkServer {FS} httpServer.
Arguments httpServer {FS} v.
Arguments close {FS} server fs.

(** ** A file system in memory *)

(** Paths with their contents, the latest write first. *)
Definition MemFS : Type := list (string * string).

Definition mem_read (path : string) (fs : MemFS) : option string :=
  option_map snd (find (fun entry => String.eqb (fst entry) path) fs).

Definition mem_write (path content : string) (fs : MemFS) : MemFS * bool :=
  ((path, content) :: fs, true).

Definition mem_remove (path : string) (fs : MemFS) : MemFS * bool :=
  (filter (fun entry => negb (String.eqb (fst entry) path)) fs, true).

Definition mem_mkdirp (dir : string) (fs : MemFS) : MemFS * bool := (fs, true).

Definition posix_join (dir name : string) : string := dir ++ "/" ++ name.

(** ** The places of a needle *)

(** The places of [s], counted from [i], at which [n] starts. *)
Fixpoint positions (n s : list ascii) (i : nat) : list nat :=
  match s with
  | [] => []
  | _ :: s' => (if prefixL n s then [i] else []) +++ positions n s' (S i)
  end.

(** The setting of a needle: the text [before] it and the text [after]
    it. *)
Record Setting : Type := mkSetting {
  before : string;
  after : string
}.

(** The needle in its setting. *)
Definition in_setting (needle : string) (c : Setting) : string :=
  before c ++ needle ++ after c.

(** The places of the needle [y] in [s] that stand in the setting. *)
Definition occurrences_in (y s : list ascii) (c : Setting) : list nat :=
  map (fun p => p + length (chars (before c)))
    (positions (chars (before c) +++ y +++ chars (after c)) s 0).

(** No place of a needle stands in both settings: the texts before are
    not the end of one text, or the texts after not the start of one. *)
Definition apart (c1 c2 : Setting) : bool :=
  negb (compatL (rev (chars (before c1))) (rev (chars (before c2)))) ||
  negb (compatL (chars (after c1)) (chars (after c2))).

Fixpoint all_apart (settings : list Setting) : bool :=
  match settings with
  | [] => true
  | c :: rest => forallb (apart c) rest && all_apart rest
  end.

(** ** The functions of the script *)

(** The functions the generator emits, each with its return type: that
    of the policy unless [csp === false]. *)
Definition emitted_functions (options : WpHmrOptions) : list (string * string) :=
  [ ("vite_hmr_is_dev", "bool");
    ("vite_hmr_is_running", "bool");
    ("vite_hmr_inject", "void") ] +++
  match policy_of options with
  | Some _ => [ ("vite_hmr_csp", "void") ]
  | None => []
  end.

(** The line that opens the function. *)
Definition function_line (name ret : string) : string :=
  TAB ++ "function " ++ name ++ "(): " ++ ret ++ " {".

(** The word [function] in the guard of a function, and in the line
    that opens the function after that guard. *)
Definition guard_setting (f : string * string) : Setting :=
  mkSetting "if ( ! "
    ("_exists( '" ++ fst f ++ "' ) ) {" ++ LF ++ function_line (fst f) (snd f)).

Definition definition_setting (f : string * string) : Setting :=
  mkSetting (guard_of (fst f) ++ LF ++ TAB)
    (" " ++ fst f ++ "(): " ++ snd f ++ " {").

(** ** The port of a URL object *)

(** The default ports of the URL Standard, which the [URL] constructor
    of the platform follows: a scheme that is not listed has none. *)
Definition default_port (protocol : string) : option N :=
  if (protocol =? "http:")%string then Some 80%N
  else if (protocol =? "https:")%string then Some 443%N
  else if (protocol =? "ws:")%string then Some 80%N
  else if (protocol =? "wss:")%string then Some 443%N
  else if (protocol =? "ftp:")%string then Some 21%N
  else None.

(** The port of the URL object, from the port the origin spells out:
    the [URL] constructor drops the default port of the scheme. *)
Definition parsed_port (protocol : string) (explicit : option N) : option N :=
  match explicit with
  | Some p =>
      match default_port protocol with
      | Some d => if (p =? d)%N then None else Some p
      | None => Some p
      end
  | None => None
  end.

(** The port an origin names: the one it spells out, or the default of
    its scheme. *)
Definition origin_port (protocol : string) (explicit : option N) : option N :=
  match explicit with
  | Some p => Some p
  | None => default_port protocol
  end.

(** The decimal digits of a port. *)
Definition port_digits_of (p : N) : string :=
  NilZero.string_of_uint (N.to_uint p).

(** The [URL] objects of two origins that spell out the default port of
    their scheme. *)
Definition default_port_URL (origin : string) : option URL :=
  if (origin =? "wss://localhost:443")%string
  then Some (mkURL "wss:" "localhost" None)
  else if (origin =? "ftp://files.test:21")%string
  then Some (mkURL "ftp:" "files.test" None)
  else None.

(** The [URL] object of [https://mysite.local:3000]. *)
Definition mysite_local_3000 : URL := mkURL "https:" "mysite.local" (Some 3000%N).

(** ** Strings and joins *)

Lemma append_assoc (a b c : string) : (a ++ b) ++ c = a ++ b ++ c.
Proof. induction a as [|x a IH]; simpl; [reflexivity | now rewrite IH]. Qed.

Lemma append_nil_r (a : string) : a ++ "" = a.
Proof. induction a as [|x a IH]; simpl; [reflexivity | now rewrite IH]. Qed.

Lemma chars_app (a b : string) : chars (a ++ b) = chars a +++ chars b.
Proof. induction a as [|x a IH]; simpl; [reflexivity | now rewrite IH]. Qed.

Lemma chars_inj (a b : string) : chars a = chars b -> a = b.
Proof.
  intros H. rewrite <- (string_of_list_ascii_of_string a), <- (string_of_list_ascii_of_string b).
  unfold chars in H. now rewrite H.
Qed.

Lemma join_cons (sep x : string) (xs : list string) :
  xs <> [] -> join sep (x :: xs) = x ++ sep ++ join sep xs.
Proof. destruct xs; [congruence | reflexivity]. Qed.

Lemma join_app (sep : string) (xs ys : list string) :
  xs <> [] -> ys <> [] -> join sep (xs +++ ys) = join sep xs ++ sep ++ join sep ys.
Proof.
  intros Hx Hy. induction xs as [|x xs IH]; [congruence|].
  destruct xs as [|x' xs].
  - simpl app. now rewrite join_cons.
  - change ((x :: x' :: xs) +++ ys) with (x :: ((x' :: xs) +++ ys)).
    rewrite !join_cons by (simpl; congruence).
    rewrite IH by congruence. now rewrite !append_assoc.
Qed.

(** Joining the lines of all fragments is joining the joined fragments. *)
Lemma join_concat (sep : string) (fs : list (list string)) :
  Forall (fun f => f <> []) fs ->
  join sep (concat fs) = join sep (map (join sep) fs).
Proof.
  induction 1 as [|f fs Hf Hfs IH]; [reflexivity|].
  destruct fs as [|g fs].
  - simpl. now rewrite app_nil_r.
  - change (concat (f :: g :: fs)) with (f +++ concat (g :: fs)).
    change (map (join sep) (f :: g :: fs)) with (join sep f :: map (join sep) (g :: fs)).
    rewrite join_cons by (simpl; congruence).
    rewrite join_app; [now rewrite IH | assumption |].
    inversion Hfs; subst. simpl. destruct g; [congruence | simpl; congruence].
Qed.

Lemma join_in_split (sep l : string) (ls : list string) :
  In l ls -> exists pre post, join sep ls = pre ++ l ++ post.
Proof.
  induction ls as [|x ls IH]; [contradiction|].
  intros [->|Hin].
  - destruct ls as [|y ls].
    + exists "", "". simpl. now rewrite append_nil_r.
    + exists "", (sep ++ join sep (y :: ls)). now rewrite join_cons.
  - destruct (IH Hin) as (pre & post & E).
    assert (ls <> []) by (destruct ls; [contradiction | congruence]).
    exists (x ++ sep ++ pre), post. rewrite join_cons by assumption.
    rewrite E. now rewrite !append_assoc.
Qed.

(** ** The loop and the fragments *)

Lemma fold_left_push_listener (events : list string) (lines : list string) :
  fold_left push_listener events lines = lines +++ flat_map listener events.
Proof.
  revert lines. induction events as [|e events IH]; intros lines; simpl.
  - now rewrite app_nil_r.
  - rewrite IH. unfold push_listener at 1, listener, push_listener, push.
    now rewrite <- app_assoc.
Qed.

Lemma buildLines_fragments (origin : string) (url : URL) (options : WpHmrOptions) :
  buildLines origin url options = concat (fragments origin url options).
Proof.
  unfold buildLines, fragments, policy_of, detector_fragment, probe_fragment,
    injector_fragment, events_of, patterns_of, ttl_of, push.
  destruct options as [od fn dp ev c cl ttl og]; simpl.
  destruct ev as [[|e ev]|]; destruct c as [[[|]|s]|];
    rewrite ?fold_left_push_listener; simpl; rewrite <- ?app_assoc; reflexivity.
Qed.

Lemma prefixL_spec (n s : list ascii) :
  prefixL n s = true <-> exists y, s = n +++ y.
Proof.
  revert s. induction n as [|a n IH]; intros s; simpl.
  - split; [intros _; now exists s | reflexivity].
  - destruct s as [|b s].
    + split; [discriminate | intros [y Hy]; discriminate].
    + rewrite andb_true_iff, Ascii.eqb_eq, IH. split.
      * intros [-> [y ->]]. now exists y.
      * intros [y Hy]. injection Hy as -> ->. split; [reflexivity | now exists y].
Qed.

Lemma prefixL_app_l (n a b : list ascii) :
  prefixL n a = true -> prefixL n (a +++ b) = true.
Proof.
  rewrite !prefixL_spec. intros [y ->]. exists (y +++ b). now rewrite app_assoc.
Qed.

Lemma prefixL_app_inv (n a b : list ascii) :
  prefixL n (a +++ b) = true ->
  prefixL n a = true \/
  exists n2, n = a +++ n2 /\ n2 <> [] /\ prefixL n2 b = true.
Proof.
  revert n. induction a as [|c a IH]; intros n H.
  - destruct n as [|d n]; [now left|]. right. exists (d :: n). repeat split; [congruence | exact H].
  - destruct n as [|d n]; [now left|]. simpl in H.
    apply andb_true_iff in H as [Hc H].
    destruct (IH n H) as [Hp | (n2 & -> & Hn2 & Hp)].
    + left. simpl. now rewrite Hc.
    + right. exists n2. apply Ascii.eqb_eq in Hc as ->. now repeat split.
Qed.

Lemma straddles_tail (n : list ascii) (c : ascii) (a b : list ascii) :
  straddles n a b -> straddles n (c :: a) b.
Proof.
  intros (n1 & n2 & x & y & -> & H1 & H2 & -> & ->).
  exists n1, n2, (c :: x), y. now repeat split.
Qed.

(** Without an occurrence across the seam, the occurrences of [a ++ b]
    are those of [a] and those of [b]. *)
Lemma countL_app (n a b : list ascii) :
  ~ straddles n a b -> countL n (a +++ b) = countL n a + countL n b.
Proof.
  induction a as [|c a IH]; intros Hs; [reflexivity|].
  change ((c :: a) +++ b) with (c :: (a +++ b)).
  cbn [countL]. rewrite IH by (intros H; apply Hs; now apply straddles_tail).
  change (c :: (a +++ b)) with ((c :: a) +++ b).
  destruct (prefixL n (c :: a)) eqn:Ea.
  - rewrite (prefixL_app_l _ _ b Ea). lia.
  - destruct (prefixL n ((c :: a) +++ b)) eqn:Eab; [|lia].
    exfalso. destruct (prefixL_app_inv _ _ _ Eab) as [Hp | (n2 & -> & Hn2 & Hp)];
      [congruence|].
    apply prefixL_spec in Hp as [y ->]. apply Hs.
    exists (c :: a), n2, [], y. repeat split; [congruence | assumption].
Qed.

Lemma countL_intro (n pre post : list ascii) :
  n <> [] -> 0 < countL n (pre +++ n +++ post).
Proof.
  intros Hn. induction pre as [|c pre IH].
  - simpl app. destruct n as [|a n]; [congruence|].
    assert (H : prefixL (a :: n) ((a :: n) +++ post) = true)
      by (apply prefixL_spec; now exists post).
    change ((a :: n) +++ post) with (a :: (n +++ post)) in *.
    cbn [countL]. rewrite H. lia.
  - change ((c :: pre) +++ n +++ post) with (c :: (pre +++ n +++ post)).
    cbn [countL]. lia.
Qed.

Lemma countL_pos (n s : list ascii) :
  0 < countL n s -> exists pre post, s = pre +++ n +++ post.
Proof.
  induction s as [|c s IH]; cbn [countL]; [lia|].
  destruct (prefixL n (c :: s)) eqn:E.
  - intros _. apply prefixL_spec in E as [y E]. exists [], y. exact E.
  - intros H. destruct (IH H) as (pre & post & ->). now exists (c :: pre), post.
Qed.

Lemma chars_nil (s : string) : chars s = [] -> s = "".
Proof. destruct s; [reflexivity | discriminate]. Qed.

(** [includes] is the substring relation. *)
Lemma includes_iff (s needle : string) :
  includes s needle = true <-> exists pre post, s = pre ++ needle ++ post.
Proof.
  unfold includes. destruct needle as [|a n].
  - split; [intros _; now exists "", s | reflexivity].
  - rewrite negb_true_iff, Nat.eqb_neq. unfold count_occurrences. split.
    + intros H. destruct (countL_pos (chars (String a n)) (chars s)) as (pre & post & E); [lia|].
      exists (string_of_list_ascii pre), (string_of_list_ascii post).
      apply chars_inj. rewrite !chars_app. unfold chars at 2 4.
      now rewrite !list_ascii_of_string_of_list_ascii.
    + intros (pre & post & ->). rewrite !chars_app.
      assert (0 < countL (chars (String a n)) (chars pre +++ chars (String a n) +++ chars post))
        by (apply countL_intro; discriminate).
      lia.
Qed.

Lemma includes_intro (pre needle post : string) :
  includes (pre ++ needle ++ post) needle = true.
Proof. apply includes_iff. now exists pre, post. Qed.

Lemma includes_false_count (s needle : string) :
  needle <> "" -> (includes s needle = false <-> count_occurrences needle s = 0).
Proof.
  intros Hn. unfold includes. destruct needle; [congruence|].
  now rewrite negb_false_iff, Nat.eqb_eq.
Qed.

Lemma includes_join (sep l : string) (ls : list string) :
  In l ls -> includes (join sep ls) l = true.
Proof.
  intros H. destruct (join_in_split sep l ls H) as (pre & post & ->).
  apply includes_intro.
Qed.

(** What contains no [a] contains nothing that [a] is part of. *)
Lemma includes_trans (s a b : string) :
  includes b a = true -> includes s a = false -> includes s b = false.
Proof.
  intros Hab Hsa. destruct (includes s b) eqn:E; [|reflexivity].
  apply includes_iff in Hab as (p1 & q1 & ->).
  apply includes_iff in E as (p2 & q2 & ->).
  assert (includes (p2 ++ (p1 ++ a ++ q1) ++ q2) a = true).
  { apply includes_iff. exists (p2 ++ p1), (q1 ++ q2). now rewrite !append_assoc. }
  congruence.
Qed.

Lemma compatL_of_eq (b y n2 z : list ascii) :
  b +++ y = n2 +++ z -> compatL n2 b = true.
Proof.
  intros H. unfold compatL. apply orb_true_iff.
  apply app_eq_app in H as (l & [[-> _] | [-> _]]).
  - left. apply prefixL_spec. now exists l.
  - right. apply prefixL_spec. now exists l.
Qed.

Lemma no_suffix_into_app (m n2 b : list ascii) :
  no_suffix_into (m +++ n2) b = true -> n2 <> [] -> compatL n2 b = false.
Proof.
  induction m as [|d m IH]; intros H Hn2.
  - destruct n2 as [|c n2]; [congruence|]. simpl in H.
    apply andb_true_iff in H as [H _]. now apply negb_true_iff in H.
  - change ((d :: m) +++ n2) with (d :: (m +++ n2)) in H. cbn [no_suffix_into] in H.
    apply andb_true_iff in H as [_ H]. now apply IH.
Qed.

Lemma tight_left_sound (n b : list ascii) :
  tight_left n b = true -> forall x y, ~ straddles n x (b +++ y).
Proof.
  intros Ht x y (n1 & n2 & x' & z & -> & H1 & H2 & _ & E).
  destruct n1 as [|d n1]; [congruence|]. cbn [app tight_left] in Ht.
  pose proof (no_suffix_into_app _ _ _ Ht H2) as Hc.
  rewrite (compatL_of_eq _ _ _ _ E) in Hc. discriminate.
Qed.

Lemma straddles_rev (n a b : list ascii) :
  straddles n a b -> straddles (rev n) (rev b) (rev a).
Proof.
  intros (n1 & n2 & x & y & -> & H1 & H2 & -> & ->).
  exists (rev n2), (rev n1), (rev y), (rev x). rewrite !rev_app_distr.
  repeat split; try reflexivity.
  - intros H. apply H2. now rewrite <- (rev_involutive n2), H.
  - intros H. apply H1. now rewrite <- (rev_involutive n1), H.
Qed.

Lemma tight_right_sound (n b : list ascii) :
  tight_right n b = true -> forall x y, ~ straddles n (x +++ b) y.
Proof.
  intros Ht x y H. apply straddles_rev in H. rewrite rev_app_distr in H.
  exact (tight_left_sound _ _ Ht _ _ H).
Qed.

Lemma total_cons (n x : string) (xs : list string) :
  total n (x :: xs) = count_occurrences n x + total n xs.
Proof. reflexivity. Qed.

Lemma total_app (n : string) (xs ys : list string) :
  total n (xs +++ ys) = total n xs + total n ys.
Proof. unfold total. now rewrite map_app, list_sum_app. Qed.

Lemma seam_free_tight (n v b : list ascii) :
  tight_left n b = true -> seam_free n v b.
Proof. intros H y. exact (tight_left_sound n b H v y). Qed.

Lemma seam_free_nil (n b : list ascii) : seam_free n [] b.
Proof.
  intros y (n1 & n2 & x & z & _ & H1 & _ & E & _).
  symmetry in E. apply app_eq_nil in E as [_ E]. congruence.
Qed.

(** A value whose last character is foreign to the needle. *)
Lemma seam_free_last (n v b : list ascii) (c : ascii) :
  ~ In c n -> seam_free n (v +++ [c]) b.
Proof.
  intros Hc y (n1 & n2 & x & z & -> & H1 & _ & E & _).
  destruct (exists_last H1) as (m & d & ->).
  rewrite app_assoc in E. apply app_inj_tail in E as [_ ->].
  apply Hc. apply in_or_app. left. apply in_or_app. right. now left.
Qed.

Lemma sound_piece_tight (n : string) (p : piece) :
  piece_tight n p = true -> sound_piece n p.
Proof.
  unfold piece_tight, sound_piece. intros H.
  apply andb_true_iff in H as [H Hr]. split; [|exact Hr].
  apply orb_true_iff in H as [H|H]; [now apply seam_free_tight|].
  destruct (fst p); [apply seam_free_nil | discriminate].
Qed.

Lemma Forall_sound_tight (n : string) (t : list piece) :
  forallb (piece_tight n) t = true -> Forall (sound_piece n) t.
Proof.
  rewrite forallb_forall, Forall_forall. intros H p Hp.
  apply sound_piece_tight. now apply H.
Qed.

(** The occurrences of a needle in a rendered template, all of whose
    pieces are sound for it, are those inside the interpolated values
    and those inside the fixed texts. *)
Lemma render_count (n : string) (t : list piece) :
  Forall (sound_piece n) t ->
  count_occurrences n (render t) = total n (holes t) + total n (literals t).
Proof.
  induction 1 as [|[v b] t [Hl Hr] Ht IH]; [reflexivity|].
  cbn [fst snd] in Hl, Hr.
  cbn [render fold_right fst snd holes literals map]. fold (render t).
  rewrite !total_cons. fold (holes t) (literals t).
  unfold count_occurrences in *. rewrite !chars_app.
  rewrite countL_app by (apply Hl).
  rewrite countL_app by (apply (tight_right_sound _ _ Hr [])).
  rewrite IH. lia.
Qed.

Lemma render_app (t1 t2 : list piece) :
  render (t1 +++ t2) = render t1 ++ render t2.
Proof.
  induction t1 as [|[v b] t1 IH]; [reflexivity|].
  cbn [app render fold_right fst snd]. fold (render (t1 +++ t2)) (render t1).
  now rewrite IH, !append_assoc.
Qed.

(** A value without a character of the needle holds no occurrence. *)
Lemma countL_missing (n s : list ascii) (c : ascii) :
  In c n -> ~ In c s -> countL n s = 0.
Proof.
  intros Hc Hs. destruct (countL n s) eqn:E; [reflexivity|].
  destruct (countL_pos n s) as (pre & post & ->); [lia|].
  exfalso. apply Hs. apply in_or_app. right. apply in_or_app. now left.
Qed.

Lemma unlines_app (xs ys : list string) :
  unlines (xs +++ ys) = unlines xs ++ unlines ys.
Proof.
  induction xs as [|x xs IH]; [reflexivity|].
  cbn [app unlines fold_right]. fold (unlines (xs +++ ys)) (unlines xs).
  now rewrite IH, !append_assoc.
Qed.

Lemma join_unlines (ls : list string) :
  join LF (ls +++ [""]) = unlines ls.
Proof.
  induction ls as [|x ls IH]; [reflexivity|].
  change ((x :: ls) +++ [""]) with (x :: (ls +++ [""])).
  rewrite join_cons by (destruct ls; discriminate). now rewrite IH.
Qed.

Lemma render_fixed_lines (ls : list string) :
  render (fixed_lines ls) = unlines ls.
Proof.
  induction ls as [|x ls IH]; [reflexivity|].
  cbn [fixed_lines map render fold_right fst snd unlines].
  fold (fixed_lines ls) (render (fixed_lines ls)) (unlines ls).
  now rewrite IH, append_assoc.
Qed.

Lemma render_cons (v b : string) (t : list piece) :
  render ((v, b) :: t) = v ++ b ++ render t.
Proof. reflexivity. Qed.

Lemma unlines_cons (l : string) (ls : list string) :
  unlines (l :: ls) = l ++ LF ++ unlines ls.
Proof. reflexivity. Qed.

(** Both sides are unfolded into append chains, nested to the right. *)
Ltac same_text :=
  cbn [render unlines fold_right fst snd map app fixed_lines guarded];
  rewrite ?append_assoc; reflexivity.

Lemma render_probe_template (host port ttl : string) :
  render (probe_template host port ttl) =
  unlines (guarded "vite_hmr_is_running" "bool" (probe_body host port ttl) +++ [""]).
Proof. unfold probe_template, probe_head, probe_rest, key_piece, probe_body. same_text. Qed.

Lemma render_policy_template (p : string) :
  render (policy_template (Some p)) =
  unlines ("" :: guarded "vite_hmr_csp" "void" (policy_body p) +++ [POLICY_REGISTRATION]).
Proof. unfold policy_template, policy_body. same_text. Qed.

Lemma render_tld_template (t : string) (ts : list string) (closing : string) :
  "'" ++ render (tld_template (t :: ts) closing) = tld_list (t :: ts) ++ closing.
Proof.
  unfold tld_list. revert t. induction ts as [|t' ts IH]; intros t.
  - cbn [tld_template render fold_right fst snd map join].
    now rewrite !append_assoc, append_nil_r.
  - change (tld_template (t :: t' :: ts) closing)
      with ((t, "', '") :: tld_template (t' :: ts) closing).
    rewrite render_cons.
    change (map (fun t0 => "'" ++ t0 ++ "'") (t :: t' :: ts))
      with (("'" ++ t ++ "'") :: map (fun t0 => "'" ++ t0 ++ "'") (t' :: ts)).
    rewrite join_cons by discriminate.
    change ("', '" ++ render (tld_template (t' :: ts) closing))
      with ("', " ++ "'" ++ render (tld_template (t' :: ts) closing)).
    rewrite IH. now rewrite !append_assoc.
Qed.

Lemma render_foreach (patterns : list string) (rest : list piece) :
  render (("", TAB ++ TAB ++ "foreach ( [ '") ::
          tld_template (DEFAULT_TLDS +++ patterns) (" ] as $tld ) {" ++ LF) +++ rest) =
  (TAB ++ TAB ++ "foreach ( [ " ++ tld_list (DEFAULT_TLDS +++ patterns) ++ " ] as $tld ) {") ++
  LF ++ render rest.
Proof.
  rewrite render_cons, render_app.
  set (r := render (tld_template (DEFAULT_TLDS +++ patterns) (" ] as $tld ) {" ++ LF))).
  transitivity ((TAB ++ TAB ++ "foreach ( [ ") ++ ("'" ++ r) ++ render rest);
    [rewrite ?append_assoc; reflexivity|].
  subst r. change (DEFAULT_TLDS +++ patterns) with ("local" :: ["test"; "dev"] +++ patterns).
  rewrite render_tld_template. rewrite ?append_assoc. reflexivity.
Qed.

Lemma render_detector_template (patterns : list string) :
  render (detector_template patterns) =
  unlines (guarded "vite_hmr_is_dev" "bool"
             (detector_body (tld_list (DEFAULT_TLDS +++ patterns))) +++ [""]).
Proof.
  unfold detector_template. rewrite render_app, render_foreach.
  rewrite !render_fixed_lines.
  unfold detector_body. cbn [unlines fold_right app guarded].
  rewrite ?append_assoc. reflexivity.
Qed.

Lemma render_listener_template (event : string) :
  render (listener_template event) = unlines (listener event).
Proof. unfold listener_template, listener, push_listener, push. cbn [tl]. same_text. Qed.

Lemma render_listeners (events : list string) :
  render (flat_map listener_template events) = unlines (flat_map listener events).
Proof.
  induction events as [|e events IH]; [reflexivity|].
  cbn [flat_map]. now rewrite render_app, unlines_app, IH, render_listener_template.
Qed.

Lemma render_subscription_template (origin : string) (events : list string) :
  render (subscription_template origin events) =
  unlines (subscription_block origin events).
Proof.
  unfold subscription_template, subscription_block.
  rewrite !render_app, !unlines_app, render_listeners, !render_fixed_lines.
  cbn [render unlines fold_right fst snd]. rewrite ?append_assoc. reflexivity.
Qed.

Lemma render_injector_template (origin : string) (events : list string) :
  render (injector_template origin events) =
  unlines (guarded "vite_hmr_inject" "void" (injector_body origin events) +++
           [INJECT_REGISTRATION]).
Proof.
  unfold injector_template, injector_body, guarded.
  rewrite !render_app, !unlines_app, !render_fixed_lines.
  replace (render match events with
                  | [] => []
                  | _ :: _ => subscription_template origin events
                  end)
    with (unlines match events with
                  | [] => []
                  | _ :: _ => subscription_block origin events
                  end)
    by (destruct events; [reflexivity | now rewrite render_subscription_template]).
  cbn [render unlines fold_right fst snd]. rewrite ?append_assoc. reflexivity.
Qed.

(** The lines of the output, the closing empty line apart. *)
Lemma concat_fragments (origin : string) (url : URL) (options : WpHmrOptions) :
  concat (fragments origin url options) =
  (header_lines +++ detector_fragment options +++ probe_fragment url options +++
   (guarded "vite_hmr_inject" "void" (injector_body origin (events_of options)) +++
    [INJECT_REGISTRATION]) +++
   match policy_of options with
   | Some p => "" :: guarded "vite_hmr_csp" "void" (policy_body p) +++ [POLICY_REGISTRATION]
   | None => []
   end) +++ [""].
Proof.
  unfold fragments, injector_fragment. destruct (policy_of options) as [p|].
  - unfold policy_fragment. cbn [concat app]. rewrite <- !app_assoc. reflexivity.
  - cbn [concat app]. rewrite <- !app_assoc. reflexivity.
Qed.

(** The generated text is the rendered template. *)
Lemma buildLines_template (origin : string) (url : URL) (options : WpHmrOptions) :
  join LF (buildLines origin url options) = render (template origin url options).
Proof.
  rewrite buildLines_fragments, concat_fragments, join_unlines.
  unfold template. rewrite !render_app, !unlines_app.
  rewrite render_fixed_lines, render_detector_template, render_probe_template,
    render_injector_template.
  unfold detector_fragment, probe_fragment.
  destruct (policy_of options) as [p|]; rewrite ?render_policy_template;
    rewrite ?unlines_app, ?append_assoc; reflexivity.
Qed.

(** ** Every piece of the output is sound for a needle that fits *)

Lemma covered_sound (n : string) (p : piece) :
  forallb (piece_tight n) SHAPES = true -> covered p = true -> sound_piece n p.
Proof.
  intros Hs Hc. unfold covered in Hc.
  apply existsb_exists in Hc as (shape & Hin & Hc).
  rewrite forallb_forall in Hs. specialize (Hs shape Hin).
  unfold covers in Hc. apply andb_true_iff in Hc as [He Hv].
  apply String.eqb_eq in He.
  unfold piece_tight in Hs. apply andb_true_iff in Hs as [Hl Hr].
  unfold sound_piece. rewrite <- He. split; [|exact Hr].
  apply orb_true_iff in Hl as [Hl|Hl]; [now apply seam_free_tight|].
  rewrite Hl in Hv. cbn in Hv. destruct (fst p); [apply seam_free_nil | discriminate].
Qed.

Lemma Forall_covered_sound (n : string) (t : list piece) :
  forallb (piece_tight n) SHAPES = true ->
  forallb covered t = true -> Forall (sound_piece n) t.
Proof.
  intros Hs. rewrite forallb_forall, Forall_forall. intros H p Hp.
  apply covered_sound; auto.
Qed.

Lemma covered_tld_template (ts : list string) :
  forallb covered (tld_template ts (" ] as $tld ) {" ++ LF)) = true.
Proof.
  induction ts as [|t ts IH]; [reflexivity|].
  destruct ts as [|t' ts]; [vm_compute; reflexivity|].
  change (tld_template (t :: t' :: ts) (" ] as $tld ) {" ++ LF))
    with ((t, "', '") :: tld_template (t' :: ts) (" ] as $tld ) {" ++ LF)).
  cbn [forallb]. rewrite IH. vm_compute. reflexivity.
Qed.

Lemma covered_detector_template (patterns : list string) :
  forallb covered (detector_template patterns) = true.
Proof.
  unfold detector_template. rewrite forallb_app. cbn [forallb].
  rewrite forallb_app, covered_tld_template. vm_compute. reflexivity.
Qed.

Lemma covered_probe_head : forallb covered probe_head = true.
Proof. vm_compute. reflexivity. Qed.

Lemma covered_probe_rest (host port ttl : string) :
  forallb covered (probe_rest host port ttl) = true.
Proof. vm_compute. reflexivity. Qed.

Lemma forallb_flat_map {A B : Type} (f : B -> bool) (g : A -> list B) (l : list A) :
  (forall a, forallb f (g a) = true) -> forallb f (flat_map g l) = true.
Proof.
  intros H. induction l as [|a l IH]; [reflexivity|].
  cbn [flat_map]. now rewrite forallb_app, H, IH.
Qed.

Lemma covered_injector_template (origin : string) (events : list string) :
  forallb covered (injector_template origin events) = true.
Proof.
  unfold injector_template. destruct events as [|e events].
  - vm_compute. reflexivity.
  - unfold subscription_template. rewrite !forallb_app.
    rewrite (forallb_flat_map covered listener_template)
      by (intros a; vm_compute; reflexivity).
    vm_compute. reflexivity.
Qed.

Lemma covered_policy_template (policy : option string) :
  forallb covered (policy_template policy) = true.
Proof. destruct policy; vm_compute; reflexivity. Qed.

Lemma string_of_uint_digits (d : Decimal.uint) :
  forallb is_digit (chars (NilEmpty.string_of_uint d)) = true.
Proof. induction d; cbn [NilEmpty.string_of_uint chars list_ascii_of_string forallb]; auto. Qed.

Lemma nilzero_uint_digits (d : Decimal.uint) :
  forallb is_digit (chars (NilZero.string_of_uint d)) = true.
Proof.
  unfold NilZero.string_of_uint.
  destruct d; first [reflexivity | apply string_of_uint_digits].
Qed.

(** The port of a URL is a string of digits. *)
Lemma port_digits (url : URL) : forallb is_digit (chars (port url)) = true.
Proof.
  unfold port. destruct (port_number url); [apply nilzero_uint_digits | reflexivity].
Qed.

(** The port that is emitted is a string of digits and is not empty. *)
Lemma resolved_port_digits (url : URL) :
  forallb is_digit (chars (resolved_port url)) = true.
Proof.
  unfold resolved_port.
  destruct (port url =? "")%string; [|apply port_digits].
  destruct (protocol url =? "https:")%string; reflexivity.
Qed.

Lemma resolved_port_nonempty (url : URL) : resolved_port url <> "".
Proof.
  unfold resolved_port. destruct (port url =? "")%string eqn:E.
  - destruct (protocol url =? "https:")%string; discriminate.
  - now apply String.eqb_neq.
Qed.

Lemma no_digit_spec (n : string) (c : ascii) :
  no_digit n = true -> is_digit c = true -> ~ In c (chars n).
Proof.
  unfold no_digit. rewrite forallb_forall. intros H Hc Hin.
  specialize (H c Hin). now rewrite Hc in H.
Qed.

Lemma sound_key_piece (n port : string) :
  tight_right (chars n) (chars (snd (key_piece ""))) = true ->
  tight_left (chars n) (chars (snd (key_piece ""))) || no_digit n = true ->
  port <> "" -> forallb is_digit (chars port) = true ->
  sound_piece n (key_piece port).
Proof.
  intros Hr Hl Hp Hd. split; [|exact Hr]. cbn [key_piece fst snd].
  apply orb_true_iff in Hl as [Hl|Hl]; [now apply seam_free_tight|].
  rewrite chars_app.
  assert (Hne : chars port <> []) by (intros E; apply Hp; now apply chars_nil).
  destruct (exists_last Hne) as (m & d & E). rewrite E, app_assoc.
  apply seam_free_last. apply (no_digit_spec _ _ Hl).
  rewrite forallb_forall in Hd. apply Hd. rewrite E. apply in_or_app. right. now left.
Qed.

Lemma template_sound (n origin : string) (url : URL) (options : WpHmrOptions) :
  needle_ok n = true ->
  Forall (sound_piece n) (template origin url options).
Proof.
  unfold needle_ok. intros H.
  apply andb_true_iff in H as [H _]. apply andb_true_iff in H as [H _].
  apply andb_true_iff in H as [H Hkl]. apply andb_true_iff in H as [Hs Hkr].
  unfold template, probe_template.
  apply Forall_app; split;
    [apply (Forall_covered_sound n _ Hs); vm_compute; reflexivity|].
  apply Forall_app; split;
    [apply (Forall_covered_sound n _ Hs), covered_detector_template|].
  apply Forall_app; split.
  - apply Forall_app; split;
      [apply (Forall_covered_sound n _ Hs), covered_probe_head|].
    apply Forall_cons;
      [|apply (Forall_covered_sound n _ Hs), covered_probe_rest].
    apply sound_key_piece; auto using resolved_port_nonempty, resolved_port_digits.
  - apply Forall_app; split;
      [apply (Forall_covered_sound n _ Hs), covered_injector_template
      |apply (Forall_covered_sound n _ Hs), covered_policy_template].
Qed.

(** ** The occurrences inside the interpolated values *)

Lemma holes_app (t1 t2 : list piece) : holes (t1 +++ t2) = holes t1 +++ holes t2.
Proof. apply map_app. Qed.

Lemma literals_app (t1 t2 : list piece) :
  literals (t1 +++ t2) = literals t1 +++ literals t2.
Proof. apply map_app. Qed.

Lemma count_empty (n : string) : count_occurrences n "" = 0.
Proof. reflexivity. Qed.

Lemma total_holes_fixed_lines (n : string) (ls : list string) :
  total n (holes (fixed_lines ls)) = 0.
Proof. induction ls as [|l ls IH]; [reflexivity | exact IH]. Qed.

Lemma total_holes_tld_template (n : string) (ts : list string) (closing : string) :
  total n (holes (tld_template ts closing)) = total n ts.
Proof.
  induction ts as [|t ts IH]; [reflexivity|].
  destruct ts as [|t' ts]; [reflexivity|].
  change (tld_template (t :: t' :: ts) closing)
    with ((t, "', '") :: tld_template (t' :: ts) closing).
  cbn [holes map fst]. fold (holes (tld_template (t' :: ts) closing)).
  now rewrite !total_cons, IH, total_cons.
Qed.

Lemma total_holes_detector (n : string) (patterns : list string) :
  total n (holes (detector_template patterns)) = total n (DEFAULT_TLDS +++ patterns).
Proof.
  unfold detector_template. rewrite holes_app, total_app, total_holes_fixed_lines.
  cbn [holes map fst]. rewrite total_cons, count_empty.
  fold (holes (tld_template (DEFAULT_TLDS +++ patterns) (" ] as $tld ) {" ++ LF) +++
               fixed_lines
                 [ TAB ++ TAB ++ TAB ++ "if ( preg_match( '/\\.' . $tld . '$/i', $host ) ) { return true; }";
                   TAB ++ TAB ++ "}"; TAB ++ TAB ++ "return false;"; TAB ++ "}"; "}"; "" ])).
  now rewrite holes_app, total_app, total_holes_fixed_lines, total_holes_tld_template.
Qed.

Lemma total_holes_probe (n host port ttl : string) :
  total n (holes (probe_template host port ttl)) =
  count_occurrences n ("vite_hmr_" ++ port) + count_occurrences n host +
  count_occurrences n port + count_occurrences n ttl.
Proof.
  unfold probe_template, probe_head, probe_rest, key_piece, fixed_lines.
  cbn [holes map app fst]. rewrite !total_cons, !count_empty. change (total n []) with 0; lia.
Qed.

Lemma total_holes_listeners (n : string) (events : list string) :
  total n (holes (flat_map listener_template events)) = total n events.
Proof.
  induction events as [|e events IH]; [reflexivity|].
  cbn [flat_map]. rewrite holes_app, total_app, IH, total_cons.
  unfold listener_template, fixed_lines. cbn [holes map fst tl listener push_listener push app].
  rewrite !total_cons, !count_empty. change (total n []) with 0; lia.
Qed.

Lemma total_holes_injector (n origin : string) (events : list string) :
  total n (holes (injector_template origin events)) =
  count_occurrences n origin +
  match events with
  | [] => 0
  | _ :: _ => count_occurrences n origin + total n events
  end.
Proof.
  unfold injector_template. rewrite !holes_app, !total_app, !total_holes_fixed_lines.
  cbn [holes map fst]. rewrite !total_cons, !count_empty.
  destruct events as [|e events]; [change (total n []) with 0; cbn [holes map]; change (total n []) with 0; lia|].
  unfold subscription_template.
  rewrite !holes_app, !total_app, !total_holes_fixed_lines, total_holes_listeners.
  cbn [holes map fst]. rewrite !total_cons, !count_empty. change (total n []) with 0; lia.
Qed.

Lemma total_holes_policy (n : string) (policy : option string) :
  total n (holes (policy_template policy)) =
  match policy with Some p => count_occurrences n p | None => 0 end.
Proof.
  destruct policy as [p|]; [|reflexivity].
  unfold policy_template, fixed_lines. cbn [holes map app fst].
  rewrite !total_cons, !count_empty. change (total n []) with 0; lia.
Qed.

(** ** The occurrences inside the fixed text *)

Lemma total_literals_tld_template (n t : string) (ts : list string) (closing : string) :
  total n (literals (tld_template (t :: ts) closing)) =
  length ts * count_occurrences n "', '" + count_occurrences n ("'" ++ closing).
Proof.
  revert t. induction ts as [|t' ts IH]; intros t.
  - cbn [tld_template literals map snd]. rewrite total_cons. change (total n []) with 0. cbn [length]. lia.
  - change (tld_template (t :: t' :: ts) closing)
      with ((t, "', '") :: tld_template (t' :: ts) closing).
    cbn [literals map snd]. fold (literals (tld_template (t' :: ts) closing)).
    rewrite total_cons, IH. cbn [length]. lia.
Qed.

Lemma total_literals_detector (n : string) (patterns : list string) :
  total n (literals (detector_template patterns)) =
  total n (literals (detector_template [])) +
  length patterns * count_occurrences n "', '".
Proof.
  unfold detector_template.
  rewrite !literals_app, !total_app.
  cbn [literals map snd].
  fold (literals (tld_template (DEFAULT_TLDS +++ patterns) (" ] as $tld ) {" ++ LF) +++
               fixed_lines
                 [ TAB ++ TAB ++ TAB ++ "if ( preg_match( '/\\.' . $tld . '$/i', $host ) ) { return true; }";
                   TAB ++ TAB ++ "}"; TAB ++ TAB ++ "return false;"; TAB ++ "}"; "}"; "" ])).
  fold (literals (tld_template (DEFAULT_TLDS +++ []) (" ] as $tld ) {" ++ LF) +++
               fixed_lines
                 [ TAB ++ TAB ++ TAB ++ "if ( preg_match( '/\\.' . $tld . '$/i', $host ) ) { return true; }";
                   TAB ++ TAB ++ "}"; TAB ++ TAB ++ "return false;"; TAB ++ "}"; "}"; "" ])).
  rewrite !total_cons, !literals_app, !total_app.
  change (DEFAULT_TLDS +++ patterns) with ("local" :: ["test"; "dev"] +++ patterns).
  change (DEFAULT_TLDS +++ []) with ("local" :: ["test"; "dev"]).
  rewrite !total_literals_tld_template. rewrite length_app. cbn [length]. lia.
Qed.

Lemma total_literals_listeners (n : string) (events : list string) :
  total n (literals (flat_map listener_template events)) =
  length events * total n (literals (listener_template "")).
Proof.
  induction events as [|e events IH]; [reflexivity|].
  cbn [flat_map length]. rewrite literals_app, total_app, IH.
  change (literals (listener_template e)) with (literals (listener_template "")). lia.
Qed.

Lemma total_literals_injector (n origin : string) (events : list string) :
  total n (literals (injector_template origin events)) =
  total n (literals (injector_template "" [])) +
  match events with
  | [] => 0
  | _ :: _ =>
      total n (literals (subscription_template "" [])) +
      length events * total n (literals (listener_template ""))
  end.
Proof.
  unfold injector_template. rewrite !literals_app, !total_app.
  destruct events as [|e events].
  - cbn [literals map snd fixed_lines]. change (total n []) with 0. lia.
  - unfold subscription_template. rewrite !literals_app, !total_app.
    rewrite total_literals_listeners.
    cbn [literals map snd fixed_lines flat_map]. change (total n []) with 0. lia.
Qed.

(** ** Values that cannot hold a fresh needle *)

Lemma fresh_nonempty (n : string) : fresh n = true -> n <> "".
Proof. intros H ->. discriminate. Qed.

Lemma fresh_count (n s : string) :
  fresh n = true -> forallb plain_char (chars s) = true ->
  count_occurrences n s = 0.
Proof.
  unfold fresh. intros Hn Hs. apply existsb_exists in Hn as (c & Hc & Hp).
  apply (countL_missing _ _ c Hc). intros Hin.
  rewrite forallb_forall in Hs. rewrite (Hs c Hin) in Hp. discriminate.
Qed.

Lemma digits_plain (l : list ascii) :
  forallb is_digit l = true -> forallb plain_char l = true.
Proof.
  rewrite !forallb_forall. intros H c Hc. unfold plain_char. now rewrite (H c Hc).
Qed.

Lemma nilzero_uint_plain (d : Decimal.uint) :
  forallb plain_char (chars (NilZero.string_of_uint d)) = true.
Proof. apply digits_plain, nilzero_uint_digits. Qed.

Lemma number_to_string_plain (z : Z) :
  forallb plain_char (chars (number_to_string z)) = true.
Proof.
  unfold number_to_string, NilZero.string_of_int.
  destruct (Z.to_int z) as [d|d]; [apply nilzero_uint_plain|].
  cbn [chars list_ascii_of_string forallb]. apply nilzero_uint_plain.
Qed.

Lemma cache_key_plain (port : string) :
  forallb is_digit (chars port) = true ->
  forallb plain_char (chars ("vite_hmr_" ++ port)) = true.
Proof.
  intros H. rewrite chars_app, forallb_app, (digits_plain _ H). reflexivity.
Qed.

Lemma free_of_total (n : string) (xs : list string) :
  n <> "" -> free_of n xs = true -> total n xs = 0.
Proof.
  intros Hn. induction xs as [|x xs IH]; [reflexivity|].
  cbn [free_of forallb]. intros H. apply andb_true_iff in H as [Hx Hxs].
  apply negb_true_iff in Hx. apply (includes_false_count _ _ Hn) in Hx.
  rewrite total_cons, Hx. now apply IH.
Qed.

Lemma free_of_cons (n x : string) (xs : list string) :
  free_of n (x :: xs) = negb (includes x n) && free_of n xs.
Proof. reflexivity. Qed.

Lemma free_of_app (n : string) (xs ys : list string) :
  free_of n (xs +++ ys) = free_of n xs && free_of n ys.
Proof. apply forallb_app. Qed.

(** ** Counting a needle in the output *)

Theorem count_in_output (n origin : string) (url : URL) (options : WpHmrOptions) :
  needle_ok n = true ->
  free_of n (interpolated origin url options) = true ->
  count_occurrences n (join LF (buildLines origin url options)) =
  expected_count n options.
Proof.
  intros Hok Hfree.
  rewrite buildLines_template, (render_count _ _ (template_sound _ _ _ _ Hok)).
  unfold needle_ok in Hok. apply andb_true_iff in Hok as [Hok Hdef].
  apply andb_true_iff in Hok as [_ Hfresh].
  pose proof (fresh_nonempty _ Hfresh) as Hne.
  pose proof (resolved_port_digits url) as Hdig.
  unfold interpolated in Hfree. rewrite !free_of_cons, !free_of_app in Hfree.
  apply andb_true_iff in Hfree as [Horigin Hfree].
  apply andb_true_iff in Hfree as [Hhost Hfree].
  apply andb_true_iff in Hfree as [Hpat Hfree].
  apply andb_true_iff in Hfree as [Hev Hpol].
  apply negb_true_iff, (includes_false_count _ _ Hne) in Horigin, Hhost.
  apply (free_of_total _ _ Hne) in Hpat, Hev, Hpol, Hdef.
  unfold template, expected_count, fixed_count, separator_count, subscription_count,
    listener_count, policy_count.
  rewrite !holes_app, !literals_app, !total_app.
  rewrite total_holes_fixed_lines, total_holes_detector, total_holes_probe,
    total_holes_injector, total_holes_policy, total_app.
  rewrite total_literals_detector, (total_literals_injector n origin).
  rewrite (fresh_count n _ Hfresh (cache_key_plain _ Hdig)).
  rewrite (fresh_count n _ Hfresh (digits_plain _ Hdig)).
  rewrite (fresh_count n _ Hfresh (number_to_string_plain _)).
  change (literals (probe_template (hostname url) (resolved_port url)
                      (number_to_string (ttl_of options))))
    with (literals (probe_template "" "" "")).
  rewrite Hdef, Hpat, Hev.
  rewrite Horigin, Hhost.
  unfold policy_of in *. unfold events_of in *.
  destruct (cssReloadEvents options) as [[|e es]|];
    destruct (csp options) as [[[|]|s]|];
    rewrite ?total_cons in Hpol; change (total n []) with 0 in Hpol;
    change (total n (literals (policy_template None))) with 0;
    try change (literals (policy_template (Some DEFAULT_POLICY)))
      with (literals (policy_template (Some "")));
    try change (literals (policy_template (Some s)))
      with (literals (policy_template (Some "")));
    lia.
Qed.

(** ** A needle inside a needle *)







Lemma includes_count (s needle : string) :
  needle <> "" -> includes s needle = true -> 1 <= count_occurrences needle s.
Proof.
  intros Hn H. destruct (count_occurrences needle s) eqn:E; [|lia].
  apply (includes_false_count _ _ Hn) in E. congruence.
Qed.

(** ** Contiguous lines *)

Lemma includes_join_block (a b c : list string) :
  b <> [] -> includes (join LF (a +++ b +++ c)) (join LF b) = true.
Proof.
  intros Hb. apply includes_iff.
  destruct a as [|x a], c as [|z c].
  - exists "", "". cbn [app]. now rewrite app_nil_r, append_nil_r.
  - exists "", (LF ++ join LF (z :: c)). cbn [app].
    rewrite join_app by (assumption || discriminate). reflexivity.
  - exists (join LF (x :: a) ++ LF), "". rewrite app_nil_r.
    rewrite join_app by (assumption || discriminate).
    now rewrite append_nil_r, append_assoc.
  - exists (join LF (x :: a) ++ LF), (LF ++ join LF (z :: c)).
    rewrite join_app by (discriminate || (destruct b; [congruence | discriminate])).
    rewrite join_app by (assumption || discriminate).
    now rewrite !append_assoc.
Qed.

(** ** Reading the decimal literal back *)

Lemma parse_number_to_string (z : Z) : parse_number (number_to_string z) = Some z.
Proof.
  unfold parse_number, number_to_string. rewrite NilZero.isi.
  - cbn [option_map]. now rewrite DecimalZ.of_to.
  - destruct z; cbn; try discriminate.
    intros [= E]. now apply Unsigned.to_uint_nonnil in E.
  - destruct z; cbn; try discriminate.
    intros [= E]. now apply Unsigned.to_uint_nonnil in E.
Qed.

(** ** The text of a pattern list determines the list *)

Lemma split_at_quote (a b x y : string) :
  no_quote a = true -> no_quote b = true ->
  a ++ "'" ++ x = b ++ "'" ++ y -> a = b /\ x = y.
Proof.
  revert b. induction a as [|c a IH]; intros [|d b] Ha Hb E.
  - injection E as E. now split.
  - injection E as E _. subst d. discriminate.
  - injection E as E _. subst c. discriminate.
  - injection E as -> E. cbn in Ha, Hb.
    apply andb_true_iff in Ha as [_ Ha]. apply andb_true_iff in Hb as [_ Hb].
    destruct (IH b Ha Hb E) as [-> ->]. now split.
Qed.

Lemma tld_list_cons (t : string) (ts : list string) :
  tld_list (t :: ts) =
  "'" ++ t ++ "'" ++ match ts with [] => "" | _ :: _ => ", " ++ tld_list ts end.
Proof.
  unfold tld_list. destruct ts as [|t' ts].
  - cbn [map join]. reflexivity.
  - change (map (fun t0 => "'" ++ t0 ++ "'") (t :: t' :: ts))
      with (("'" ++ t ++ "'") :: map (fun t0 => "'" ++ t0 ++ "'") (t' :: ts)).
    rewrite join_cons by discriminate. rewrite ?append_assoc. reflexivity.
Qed.

Lemma tld_list_injective (l1 l2 : list string) :
  forallb no_quote l1 = true -> forallb no_quote l2 = true ->
  tld_list l1 = tld_list l2 -> l1 = l2.
Proof.
  revert l2. induction l1 as [|t1 l1 IH]; intros [|t2 l2] H1 H2 E.
  - reflexivity.
  - rewrite tld_list_cons in E. discriminate.
  - rewrite tld_list_cons in E. discriminate.
  - rewrite !tld_list_cons in E. injection E as E.
    cbn [forallb] in H1, H2.
    apply andb_true_iff in H1 as [Ht1 H1]. apply andb_true_iff in H2 as [Ht2 H2].
    destruct (split_at_quote _ _ _ _ Ht1 Ht2 E) as [-> E'].
    f_equal. destruct l1 as [|a l1], l2 as [|b l2]; try discriminate; [reflexivity|].
    injection E' as E'. now apply IH.
Qed.

(** ** The properties of the generated script *)

Section Properties.

Variable new_URL : string -> option URL.

Lemma buildPhp_some (origin : string) (url : URL) (options : WpHmrOptions) :
  new_URL origin = Some url ->
  buildPhp new_URL origin options = Some (join LF (buildLines origin url options)).
Proof. unfold buildPhp. now intros ->. Qed.

Lemma in_buildLines (k : nat) (l origin : string) (url : URL) (options : WpHmrOptions) :
  nth_error (buildLines origin url options) k = Some l ->
  includes (join LF (buildLines origin url options)) l = true.
Proof. intros H. apply includes_join. exact (nth_error_In _ _ H). Qed.

(** C3. Whatever [devPatterns] is, absent included, the array of the
    [foreach] in the detector lists ['local', 'test', 'dev'] and then the
    given patterns in their order, nothing dropped: the text of the list
    is that of no other list of patterns. *)
Theorem pattern_list_is_defaults_then_devPatterns
    (origin : string) (url : URL) (options : WpHmrOptions) :
  new_URL origin = Some url ->
  let emitted := "local" :: "test" :: "dev" :: patterns_of options in
  let statement := TAB ++ TAB ++ "foreach ( [ " ++ tld_list emitted ++ " ] as $tld ) {" in
  exists lines,
    buildPhp new_URL origin options = Some (join LF lines) /\
    nth_error lines 10 = Some statement /\
    includes (join LF lines) statement = true /\
    length emitted = 3 + length (patterns_of options) /\
    forall l, forallb no_quote l = true -> forallb no_quote emitted = true ->
              tld_list l = tld_list emitted -> l = emitted.
Proof.
  intros Hu emitted statement. exists (buildLines origin url options).
  assert (Hn : nth_error (buildLines origin url options) 10 = Some statement)
    by (rewrite buildLines_fragments; reflexivity).
  split; [now apply buildPhp_some|]. split; [exact Hn|].
  split; [exact (in_buildLines _ _ _ _ _ Hn)|]. split; [reflexivity|].
  intros l Hl He E. now apply tld_list_injective.
Qed.

(** C6. The output is the fragments joined by line feeds, in this
    order: header, detector, probe, injector with its registration and,
    unless [csp === false], the policy with its registration. *)
Theorem output_is_joined_fragments
    (origin : string) (url : URL) (options : WpHmrOptions) :
  new_URL origin = Some url ->
  buildPhp new_URL origin options =
  Some (join LF
          ([ join LF header_lines;
             join LF (detector_fragment options);
             join LF (probe_fragment url options);
             join LF (injector_fragment origin options) ] +++
           match policy_of options with
           | Some policy => [join LF (policy_fragment policy)]
           | None => []
           end)).
Proof.
  intros Hu. rewrite (buildPhp_some _ _ _ Hu), buildLines_fragments. f_equal.
  rewrite join_concat.
  - unfold fragments. destruct (policy_of options); reflexivity.
  - unfold fragments. destruct (policy_of options);
      repeat (apply Forall_cons; [discriminate|]); apply Forall_nil.
Qed.

(** C7. Once the [URL] constructor accepts the origin, [buildPhp]
    returns a string, whatever the options are. *)
Theorem buildPhp_returns (origin : string) (url : URL) (options : WpHmrOptions) :
  new_URL origin = Some url ->
  exists php, buildPhp new_URL origin options = Some php.
Proof.
  intros Hu. exists (join LF (buildLines origin url options)).
  now apply buildPhp_some.
Qed.

(** C8. The cache key is [vite_hmr_] followed by the resolved port, so
    origins with different resolved ports get different keys. *)
Theorem cache_keys_differ_with_ports
    (origin1 origin2 : string) (url1 url2 : URL) (options1 options2 : WpHmrOptions) :
  new_URL origin1 = Some url1 ->
  new_URL origin2 = Some url2 ->
  resolved_port url1 <> resolved_port url2 ->
  exists lines1 lines2,
    buildPhp new_URL origin1 options1 = Some (join LF lines1) /\
    buildPhp new_URL origin2 options2 = Some (join LF lines2) /\
    nth_error lines1 19 =
      Some (TAB ++ TAB ++ "$key    = '" ++ cache_key (resolved_port url1) ++ "';") /\
    nth_error lines2 19 =
      Some (TAB ++ TAB ++ "$key    = '" ++ cache_key (resolved_port url2) ++ "';") /\
    cache_key (resolved_port url1) <> cache_key (resolved_port url2).
Proof.
  intros H1 H2 Hp.
  exists (buildLines origin1 url1 options1), (buildLines origin2 url2 options2).
  split; [now apply buildPhp_some|]. split; [now apply buildPhp_some|].
  split; [rewrite buildLines_fragments; reflexivity|].
  split; [rewrite buildLines_fragments; reflexivity|].
  unfold cache_key. intros E. apply Hp.
  apply (f_equal chars) in E. rewrite !chars_app in E.
  apply app_inv_head in E. now apply chars_inj.
Qed.

(** C9. The time to live of the cache write is [cacheTtl] as a decimal
    literal that reads back as the same integer, and 5 when the option
    is left out. *)
Theorem cache_write_uses_cacheTtl
    (origin : string) (url : URL) (options : WpHmrOptions) :
  new_URL origin = Some url ->
  match cacheTtl options with Some n => is_safe_integer n | None => true end = true ->
  let ttl := number_to_string (ttl_of options) in
  let statement :=
    TAB ++ TAB ++ "set_transient( $key, (int) $result, " ++ ttl ++ " );" in
  exists lines,
    buildPhp new_URL origin options = Some (join LF lines) /\
    nth_error lines 25 = Some statement /\
    includes (join LF lines) statement = true /\
    (cacheTtl options = None -> ttl = "5") /\
    (forall n, cacheTtl options = Some n -> parse_number ttl = Some n).
Proof.
  intros Hu _ ttl statement. exists (buildLines origin url options).
  assert (Hn : nth_error (buildLines origin url options) 25 = Some statement)
    by (rewrite buildLines_fragments; reflexivity).
  split; [now apply buildPhp_some|]. split; [exact Hn|].
  split; [exact (in_buildLines _ _ _ _ _ Hn)|].
  unfold ttl, ttl_of. split.
  - now intros ->.
  - intros n ->. apply parse_number_to_string.
Qed.

End Properties.

(** ** Needles of the claims *)

Ltac needle_constants n :=
  unfold expected_count;
  let a := eval vm_compute in (fixed_count n) in
  change (fixed_count n) with a;
  let b := eval vm_compute in (separator_count n) in
  change (separator_count n) with b;
  let c := eval vm_compute in (subscription_count n) in
  change (subscription_count n) with c;
  let d := eval vm_compute in (listener_count n) in
  change (listener_count n) with d;
  let e := eval vm_compute in (policy_count n) in
  change (policy_count n) with e;
  let f := eval vm_compute in (count_occurrences n DEFAULT_POLICY) in
  change (count_occurrences n DEFAULT_POLICY) with f.

Lemma expected_policy_name (options : WpHmrOptions) :
  csp options = Some (CspBool false) ->
  expected_count "vite_hmr_csp" options = 0.
Proof.
  intros H. needle_constants "vite_hmr_csp". unfold policy_of. rewrite H.
  destruct (events_of options); lia.
Qed.

Lemma expected_default_policy (options : WpHmrOptions) (s : string) :
  csp options = Some (CspString s) ->
  expected_count DEFAULT_POLICY options = 0.
Proof.
  intros H. needle_constants DEFAULT_POLICY. unfold policy_of. rewrite H.
  destruct (events_of options); lia.
Qed.

Lemma expected_hot_context (options : WpHmrOptions) :
  events_of options = [] ->
  expected_count "createHotContext" options = 0.
Proof.
  intros H. needle_constants "createHotContext". rewrite H.
  destruct (policy_of options); destruct (csp options) as [[[|]|]|]; lia.
Qed.

Lemma expected_listeners (options : WpHmrOptions) :
  expected_count "hot.on(" options = length (events_of options).
Proof.
  needle_constants "hot.on(".
  destruct (events_of options); destruct (policy_of options);
    destruct (csp options) as [[[|]|]|]; cbn [length]; lia.
Qed.



Lemma inputs_free_count (n origin : string) (url : URL) (options : WpHmrOptions) :
  needle_ok n = true ->
  inputs_free_of n origin url options = true ->
  count_occurrences n (join LF (buildLines origin url options)) =
  expected_count n options.
Proof.
  intros Hn H. now apply count_in_output.
Qed.

Lemma inputs_free_absent (n origin : string) (url : URL) (options : WpHmrOptions) :
  needle_ok n = true ->
  inputs_free_of n origin url options = true ->
  expected_count n options = 0 ->
  includes (join LF (buildLines origin url options)) n = false.
Proof.
  intros Hn H E. apply includes_false_count.
  - intros ->. discriminate.
  - now rewrite inputs_free_count.
Qed.

(** Lines that follow one another in the array follow one another in the
    output. *)
Lemma includes_block (origin : string) (url : URL) (options : WpHmrOptions)
    (a b c : list string) :
  concat (fragments origin url options) = a +++ b +++ c -> b <> [] ->
  includes (join LF (buildLines origin url options)) (join LF b) = true.
Proof.
  intros E Hb. rewrite buildLines_fragments, E. now apply includes_join_block.
Qed.

(** The lines around the registration of the injector. *)
Lemma lines_around_inject_registration
    (origin : string) (url : URL) (options : WpHmrOptions) :
  concat (fragments origin url options) =
  (header_lines +++ detector_fragment options +++ probe_fragment url options +++
   [guard_of "vite_hmr_inject"; TAB ++ "function vite_hmr_inject(): void {"] +++
   injector_body origin (events_of options)) +++
  [TAB ++ "}"; "}"; INJECT_REGISTRATION] +++
  "" :: match policy_of options with Some p => policy_fragment p | None => [] end.
Proof.
  unfold fragments, injector_fragment, guarded.
  destruct (policy_of options); cbn [concat app]; rewrite <- ?app_assoc, ?app_nil_r;
    reflexivity.
Qed.

(** The lines around the registration of the policy. *)
Lemma lines_around_policy_registration
    (origin : string) (url : URL) (options : WpHmrOptions) (p : string) :
  policy_of options = Some p ->
  concat (fragments origin url options) =
  (header_lines +++ detector_fragment options +++ probe_fragment url options +++
   injector_fragment origin options +++
   [guard_of "vite_hmr_csp"; TAB ++ "function vite_hmr_csp(): void {"] +++
   policy_body p) +++
  [TAB ++ "}"; "}"; POLICY_REGISTRATION] +++ [""].
Proof.
  intros H. unfold fragments, policy_fragment, guarded. rewrite H.
  cbn [concat app]. rewrite <- ?app_assoc, ?app_nil_r. reflexivity.
Qed.

(** The lines around the listeners. *)
Lemma lines_around_listeners
    (origin : string) (url : URL) (options : WpHmrOptions) :
  events_of options <> [] ->
  exists a c,
    concat (fragments origin url options) =
    (a +++ [hot_context_statement]) +++ flat_map listener (events_of options) +++ c.
Proof.
  intros He. rewrite lines_around_inject_registration. unfold injector_body.
  destruct (events_of options) as [|e es]; [congruence|].
  unfold subscription_block.
  match goal with
  | |- exists a c,
        (?H +++ ?D +++ ?P +++ ?G +++ ?L +++ (?s1 :: ?s2 :: _ :: nil) +++ ?F +++ ?C) +++ ?T = _ =>
      exists (H +++ D +++ P +++ G +++ L +++ [s1; s2]), (C +++ T)
  end.
  rewrite <- !app_assoc. reflexivity.
Qed.

Lemma guards_present (origin : string) (url : URL) (options : WpHmrOptions) :
  let php := join LF (buildLines origin url options) in
  includes php (guard_of "vite_hmr_is_dev") = true /\
  includes php (guard_of "vite_hmr_is_running") = true /\
  includes php (guard_of "vite_hmr_inject") = true.
Proof.
  cbn zeta. repeat split.
  - apply (in_buildLines 6). rewrite buildLines_fragments. reflexivity.
  - apply (in_buildLines 17). rewrite buildLines_fragments. reflexivity.
  - apply (in_buildLines 30). rewrite buildLines_fragments. reflexivity.
Qed.

Section Corrected.

Variable new_URL : string -> option URL.

(** C1, as amended.  With [csp === false] the policy function and its
    registration are not emitted: the output holds neither, nor the name
    [vite_hmr_csp], when no interpolated value holds that name.  With
    [csp === true] or no [csp] the output holds the default policy.  A
    [csp] string is in the output as it is, and the default policy is
    not in the output when no interpolated value, the [csp] string among
    them, holds it. *)
Theorem csp_option_selects_policy
    (origin : string) (url : URL) (options : WpHmrOptions) :
  new_URL origin = Some url ->
  exists php,
    buildPhp new_URL origin options = Some php /\
    (csp options = Some (CspBool false) ->
     inputs_free_of "vite_hmr_csp" origin url options = true ->
     includes php "vite_hmr_csp" = false /\
     includes php (TAB ++ "function vite_hmr_csp(): void {") = false /\
     includes php POLICY_REGISTRATION = false) /\
    (csp options = Some (CspBool true) \/ csp options = None ->
     includes php (TAB ++ TAB ++ "header( " ++ DQ ++ DEFAULT_POLICY ++ DQ ++ " );") = true /\
     includes php DEFAULT_POLICY = true) /\
    (forall s, csp options = Some (CspString s) ->
     includes php (TAB ++ TAB ++ "header( " ++ DQ ++ s ++ DQ ++ " );") = true /\
     includes php s = true /\
     (inputs_free_of DEFAULT_POLICY origin url options = true ->
      includes php DEFAULT_POLICY = false)).
Proof.
  intros Hu. exists (join LF (buildLines origin url options)).
  split; [now apply buildPhp_some|]. split; [|split].
  - intros Hc Hf.
    assert (Hname : includes (join LF (buildLines origin url options)) "vite_hmr_csp" = false).
    { apply inputs_free_absent; [vm_compute; reflexivity | exact Hf|].
      now apply expected_policy_name. }
    split; [exact Hname|]. split.
    + apply (includes_trans _ "vite_hmr_csp"); [vm_compute; reflexivity | exact Hname].
    + apply (includes_trans _ "vite_hmr_csp"); [vm_compute; reflexivity | exact Hname].
  - intros Hc.
    assert (Hp : policy_of options = Some DEFAULT_POLICY)
      by (unfold policy_of; destruct Hc as [-> | ->]; reflexivity).
    assert (Hl : includes (join LF (buildLines origin url options))
                   (TAB ++ TAB ++ "header( " ++ DQ ++ DEFAULT_POLICY ++ DQ ++ " );") = true).
    { apply includes_join. rewrite buildLines_fragments.
      rewrite (lines_around_policy_registration _ _ _ _ Hp).
      apply in_or_app. left. repeat (apply in_or_app; right).
      unfold policy_body. right. now left. }
    split; [exact Hl|].
    destruct (includes (join LF (buildLines origin url options)) DEFAULT_POLICY) eqn:E;
      [reflexivity|].
    pose proof (includes_trans _ DEFAULT_POLICY
                  (TAB ++ TAB ++ "header( " ++ DQ ++ DEFAULT_POLICY ++ DQ ++ " );")
                  (includes_intro (TAB ++ TAB ++ "header( " ++ DQ) DEFAULT_POLICY (DQ ++ " );")) E).
    congruence.
  - intros s Hc.
    assert (Hp : policy_of options = Some s) by (unfold policy_of; now rewrite Hc).
    assert (Hl : includes (join LF (buildLines origin url options))
                   (TAB ++ TAB ++ "header( " ++ DQ ++ s ++ DQ ++ " );") = true).
    { apply includes_join. rewrite buildLines_fragments.
      rewrite (lines_around_policy_registration _ _ _ _ Hp).
      apply in_or_app. left. repeat (apply in_or_app; right).
      unfold policy_body. right. now left. }
    split; [exact Hl|]. split.
    + destruct (includes (join LF (buildLines origin url options)) s) eqn:E; [reflexivity|].
      pose proof (includes_trans _ s
                    (TAB ++ TAB ++ "header( " ++ DQ ++ s ++ DQ ++ " );")
                    (includes_intro (TAB ++ TAB ++ "header( " ++ DQ) s (DQ ++ " );")) E).
      congruence.
    + intros Hf. apply inputs_free_absent; [vm_compute; reflexivity | exact Hf|].
      now apply (expected_default_policy _ s).
Qed.

(** C2, as amended.  Without event names, absent or empty, the output
    has no subscription block: it holds neither [createHotContext] nor
    [hot.on(] when no interpolated value holds them.  With event names
    the block is there, with the listeners of the events one after the
    other in the order of the input, each listener opening with its own
    event name; and [hot.on(] is in the output once for each event when
    no interpolated value, the event names among them, holds it. *)
Theorem cssReloadEvents_select_listeners
    (origin : string) (url : URL) (options : WpHmrOptions) :
  new_URL origin = Some url ->
  exists php,
    buildPhp new_URL origin options = Some php /\
    (events_of options = [] ->
     inputs_free_of "createHotContext" origin url options = true ->
     inputs_free_of "hot.on(" origin url options = true ->
     includes php "createHotContext" = false /\
     includes php "hot.on(" = false) /\
    (events_of options <> [] ->
     includes php
       (join LF (hot_context_statement :: flat_map listener (events_of options))) = true /\
     (inputs_free_of "hot.on(" origin url options = true ->
      count_occurrences "hot.on(" php = length (events_of options))) /\
    (forall event,
       exists rest,
         listener event =
         (TAB ++ TAB ++ "echo 'hot.on(" ++ DQ ++ event ++ DQ ++ ", () => {' . " ++
          DQ ++ "\n" ++ DQ ++ ";") :: rest /\
         length rest = 4 /\
         forallb (fun l => negb (includes l "hot.on(")) rest = true).
Proof.
  intros Hu. exists (join LF (buildLines origin url options)).
  split; [now apply buildPhp_some|]. split; [|split].
  - intros He Hc Hh. split.
    + apply inputs_free_absent; [vm_compute; reflexivity | exact Hc|].
      now apply expected_hot_context.
    + apply inputs_free_absent; [vm_compute; reflexivity | exact Hh|].
      now rewrite expected_listeners, He.
  - intros He. split.
    + destruct (lines_around_listeners origin url options He) as (a & c & E).
      apply (includes_block _ _ _ a _ c); [|discriminate].
      rewrite E, <- !app_assoc. reflexivity.
    + intros Hh. rewrite inputs_free_count; [apply expected_listeners| |exact Hh].
      vm_compute. reflexivity.
  - intros event. eexists. split; [reflexivity|]. split; reflexivity.
Qed.

End Corrected.

(** ** The claims at the inputs of the test suite *)

(** C1 fails as it is stated: the default policy given as the [csp]
    string is in the output, and with [csp === false] a pattern brings
    the name of the policy function and its registration into the
    output. *)
Lemma csp_claim_fails :
  (exists php,
     buildPhp test_URL "http://localhost:5173"
       (with_csp (CspString DEFAULT_POLICY) opts) = Some php /\
     csp (with_csp (CspString DEFAULT_POLICY) opts) = Some (CspString DEFAULT_POLICY) /\
     includes php DEFAULT_POLICY = true) /\
  (exists php,
     buildPhp test_URL "http://localhost:5173"
       (with_csp (CspBool false) (with_devPatterns [POLICY_REGISTRATION] opts)) = Some php /\
     csp (with_csp (CspBool false) (with_devPatterns [POLICY_REGISTRATION] opts)) =
       Some (CspBool false) /\
     includes php "vite_hmr_csp" = true /\
     includes php POLICY_REGISTRATION = true).
Proof.
  split; eexists; (split; [reflexivity|]); repeat split; vm_compute; reflexivity.
Qed.

Lemma csp_option_selects_policy_witness :
  test_URL "http://localhost:5173" = Some localhost_5173 /\
  inputs_free_of "vite_hmr_csp" "http://localhost:5173" localhost_5173
    (with_csp (CspBool false) opts) = true /\
  exists php,
    buildPhp test_URL "http://localhost:5173" (with_csp (CspBool false) opts) = Some php /\
    includes php "vite_hmr_csp" = false /\
    includes php POLICY_REGISTRATION = false.
Proof.
  split; [reflexivity|]. split; [vm_compute; reflexivity|].
  destruct (csp_option_selects_policy test_URL "http://localhost:5173" localhost_5173
              (with_csp (CspBool false) opts) eq_refl) as (php & E & H & _).
  exists php. split; [exact E|].
  destruct (H eq_refl) as (H1 & _ & H3); [vm_compute; reflexivity|]. now split.
Defined.

(** C2 fails as it is stated: without event names, patterns bring the
    statement that opens the hot context and a listener registration
    into the output. *)
Lemma cssReloadEvents_claim_fails :
  let options :=
    with_devPatterns [hot_context_statement; nth 0 (listener "evt") ""] opts in
  exists php,
    buildPhp test_URL "http://localhost:5173" options = Some php /\
    cssReloadEvents options = None /\
    includes php hot_context_statement = true /\
    includes php (nth 0 (listener "evt") "") = true.
Proof.
  eexists; (split; [reflexivity|]); repeat split; vm_compute; reflexivity.
Qed.

Lemma cssReloadEvents_select_listeners_witness :
  test_URL "http://localhost:5173" = Some localhost_5173 /\
  inputs_free_of "hot.on(" "http://localhost:5173" localhost_5173
    (with_cssReloadEvents ["evt1"; "evt2"] opts) = true /\
  exists php,
    buildPhp test_URL "http://localhost:5173"
      (with_cssReloadEvents ["evt1"; "evt2"] opts) = Some php /\
    includes php
      (join LF (hot_context_statement :: listener "evt1" +++ listener "evt2")) = true /\
    count_occurrences "hot.on(" php = 2.
Proof.
  split; [reflexivity|]. split; [vm_compute; reflexivity|].
  destruct (cssReloadEvents_select_listeners test_URL "http://localhost:5173" localhost_5173
              (with_cssReloadEvents ["evt1"; "evt2"] opts) eq_refl)
    as (php & E & _ & H & _).
  exists php. split; [exact E|].
  destruct H as [H1 H2]; [discriminate|]. split; [exact H1|].
  apply H2. vm_compute. reflexivity.
Defined.

Lemma pattern_list_witness :
  test_URL "http://localhost:5173" = Some localhost_5173 /\
  exists lines,
    buildPhp test_URL "http://localhost:5173"
      (with_devPatterns ["ddev"; "local"] opts) = Some (join LF lines) /\
    nth_error lines 10 =
      Some (TAB ++ TAB ++ "foreach ( [ 'local', 'test', 'dev', 'ddev', 'local' ] as $tld ) {").
Proof.
  split; [reflexivity|].
  destruct (pattern_list_is_defaults_then_devPatterns test_URL "http://localhost:5173"
              localhost_5173 (with_devPatterns ["ddev"; "local"] opts) eq_refl)
    as (lines & E & H & _).
  exists lines. split; [exact E | exact H].
Defined.

(** C5 fails as it is stated: with [csp === false] the output has no
    guard of [vite_hmr_csp], and no such function. *)
Lemma guard_claim_fails :
  exists php,
    buildPhp test_URL "http://localhost:5173" (with_csp (CspBool false) opts) = Some php /\
    csp (with_csp (CspBool false) opts) = Some (CspBool false) /\
    includes php (guard_of "vite_hmr_csp") = false /\
    includes php "function_exists( 'vite_hmr_csp' )" = false /\
    includes php "vite_hmr_csp" = false.
Proof.
  eexists; (split; [reflexivity|]); repeat split; vm_compute; reflexivity.
Qed.

Lemma output_is_joined_fragments_witness :
  test_URL "http://localhost:5173" = Some localhost_5173 /\
  buildPhp test_URL "http://localhost:5173" (with_csp (CspBool false) opts) =
  Some (join LF
          [ join LF header_lines;
            join LF (detector_fragment (with_csp (CspBool false) opts));
            join LF (probe_fragment localhost_5173 (with_csp (CspBool false) opts));
            join LF (injector_fragment "http://localhost:5173"
                       (with_csp (CspBool false) opts)) ]).
Proof.
  split; [reflexivity|].
  exact (output_is_joined_fragments test_URL "http://localhost:5173" localhost_5173
           (with_csp (CspBool false) opts) eq_refl).
Defined.

Lemma buildPhp_returns_witness :
  test_URL "https://mysite.local:3000" = Some (mkURL "https:" "mysite.local" (Some 3000%N)) /\
  exists php, buildPhp test_URL "https://mysite.local:3000" opts = Some php.
Proof.
  split; [reflexivity|].
  exact (buildPhp_returns test_URL "https://mysite.local:3000"
           (mkURL "https:" "mysite.local" (Some 3000%N)) opts eq_refl).
Defined.

Lemma cache_keys_witness :
  test_URL "http://localhost:5173" = Some localhost_5173 /\
  test_URL "https://mysite.local" = Some mysite_local /\
  resolved_port localhost_5173 <> resolved_port mysite_local /\
  cache_key "5173" <> cache_key "443".
Proof.
  split; [reflexivity|]. split; [reflexivity|].
  assert (Hp : resolved_port localhost_5173 <>
               resolved_port mysite_local) by discriminate.
  split; [exact Hp|].
  destruct (cache_keys_differ_with_ports test_URL "http://localhost:5173"
              "https://mysite.local" localhost_5173 mysite_local
              opts opts eq_refl eq_refl Hp) as (l1 & l2 & _ & _ & _ & _ & H).
  exact H.
Defined.

Lemma cache_write_witness :
  test_URL "http://localhost:5173" = Some localhost_5173 /\
  is_safe_integer 10 = true /\
  exists lines,
    buildPhp test_URL "http://localhost:5173" (with_cacheTtl 10 opts) = Some (join LF lines) /\
    nth_error lines 25 = Some (TAB ++ TAB ++ "set_transient( $key, (int) $result, 10 );").
Proof.
  split; [reflexivity|]. split; [reflexivity|].
  destruct (cache_write_uses_cacheTtl test_URL "http://localhost:5173" localhost_5173
              (with_cacheTtl 10 opts) eq_refl eq_refl) as (lines & E & H & _).
  exists lines. split; [exact E | exact H].
Defined.


(** Two patterns, neither of which holds the registration, put it
    together around the separator of the pattern list: a value free of
    the whole registration line is not enough for it to occur once. *)
Example registration_from_two_patterns :
  let options :=
    with_devPatterns ["add_action( 'wp_head"; "vite_hmr_inject', 1 );"] opts in
  free_of INJECT_REGISTRATION
    (interpolated "http://localhost:5173" localhost_5173 options) = true /\
  exists php,
    buildPhp test_URL "http://localhost:5173" options = Some php /\
    count_occurrences INJECT_REGISTRATION php = 2.
Proof.
  split; [vm_compute; reflexivity|].
  eexists; (split; [reflexivity|]); vm_compute; reflexivity.
Qed.

(** ** The test suite of the repository on the model *)

Example test_default_php :
  let php := php_of "http://localhost:5173" opts in
  includes php "Plugin Name: Vite HMR" = true /\
  includes php "http://localhost:5173/@vite/client" = true /\
  includes php "@fsockopen( 'localhost', 5173" = true /\
  includes php "'local', 'test', 'dev'" = true /\
  includes php "Content-Security-Policy" = true.
Proof. repeat split; vm_compute; reflexivity. Qed.

Example test_custom_origin :
  let php := php_of "https://mysite.local:3000" opts in
  includes php "https://mysite.local:3000/@vite/client" = true /\
  includes php "@fsockopen( 'mysite.local', 3000" = true.
Proof. repeat split; vm_compute; reflexivity. Qed.

Example test_merges_devPatterns :
  includes (php_of "http://localhost:5173" (with_devPatterns ["ddev"] opts))
    "'local', 'test', 'dev', 'ddev'" = true.
Proof. vm_compute. reflexivity. Qed.

Example test_single_cssReloadEvent :
  let php := php_of "http://localhost:5173" (with_cssReloadEvents ["wp:css-update"] opts) in
  includes php "createHotContext" = true /\
  includes php ("hot.on(" ++ DQ ++ "wp:css-update" ++ DQ) = true.
Proof. repeat split; vm_compute; reflexivity. Qed.

Example test_multiple_cssReloadEvents :
  let php := php_of "http://localhost:5173" (with_cssReloadEvents ["evt1"; "evt2"] opts) in
  includes php ("hot.on(" ++ DQ ++ "evt1" ++ DQ) = true /\
  includes php ("hot.on(" ++ DQ ++ "evt2" ++ DQ) = true.
Proof. repeat split; vm_compute; reflexivity. Qed.

Example test_no_cssReloadEvents :
  includes (php_of "http://localhost:5173" opts) "createHotContext" = false.
Proof. vm_compute. reflexivity. Qed.

Example test_csp_false :
  let php := php_of "http://localhost:5173" (with_csp (CspBool false) opts) in
  includes php "Content-Security-Policy" = false /\
  includes php "vite_hmr_csp" = false.
Proof. repeat split; vm_compute; reflexivity. Qed.

Example test_custom_csp :
  includes
    (php_of "http://localhost:5173"
       (with_csp (CspString "Content-Security-Policy: script-src 'self';") opts))
    "Content-Security-Policy: script-src 'self';" = true.
Proof. vm_compute. reflexivity. Qed.

Example test_custom_cacheTtl :
  includes (php_of "http://localhost:5173" (with_cacheTtl 10 opts))
    "set_transient( $key, (int) $result, 10 )" = true.
Proof. vm_compute. reflexivity. Qed.

Example test_function_exists_guards :
  forallb
    (fun fn => includes (php_of "http://localhost:5173" opts)
                 ("if ( ! function_exists( '" ++ fn ++ "' ) )"))
    ["vite_hmr_is_dev"; "vite_hmr_is_running"; "vite_hmr_inject"; "vite_hmr_csp"] = true.
Proof. vm_compute. reflexivity. Qed.

(** ** Further properties of the generated text *)

Lemma starts_with_app (p rest : string) : starts_with (p ++ rest) p = true.
Proof. unfold starts_with. rewrite chars_app. apply prefixL_spec. now exists (chars rest). Qed.

Lemma ends_with_app (front p : string) : ends_with (front ++ p) p = true.
Proof.
  unfold ends_with. rewrite chars_app, rev_app_distr. apply prefixL_spec.
  now exists (rev (chars front)).
Qed.

Lemma unlines_last (ls : list string) (l : string) :
  unlines (ls +++ [l]) = unlines ls ++ l ++ LF.
Proof. rewrite unlines_app. cbn [unlines fold_right]. now rewrite append_nil_r. Qed.


Section MoreProperties.

Variable new_URL : string -> option URL.

(** X1. The output opens with the PHP tag on a line of its own and ends
    with the last registration and a line feed: that of the policy, or
    that of the injector when [csp === false]. *)
Theorem output_opens_with_tag_and_ends_with_registration
    (origin : string) (url : URL) (options : WpHmrOptions) :
  new_URL origin = Some url ->
  exists php,
    buildPhp new_URL origin options = Some php /\
    starts_with php ("<?php" ++ LF) = true /\
    ends_with php
      (match policy_of options with
       | Some _ => POLICY_REGISTRATION
       | None => INJECT_REGISTRATION
       end ++ LF) = true.
Proof.
  intros Hu. exists (join LF (buildLines origin url options)).
  split; [now apply buildPhp_some|]. split.
  - rewrite buildLines_fragments, concat_fragments, join_unlines.
    unfold header_lines. cbn [app unlines fold_right].
    apply (starts_with_app ("<?php" ++ LF)).
  - rewrite buildLines_fragments, concat_fragments, join_unlines.
    destruct (policy_of options) as [p|].
    + rewrite !app_assoc, app_comm_cons, !app_assoc, unlines_last. apply ends_with_app.
    + rewrite app_nil_r, !app_assoc, unlines_last. apply ends_with_app.
Qed.

(** X2. The injector echoes one script tag whose source is the origin
    as it was given, followed by [/@vite/client]; the subscription
    block, when there is one, imports from the same address.  No other
    place of the output names the client, when no interpolated value
    does. *)
Theorem client_is_loaded_from_the_origin
    (origin : string) (url : URL) (options : WpHmrOptions) :
  new_URL origin = Some url ->
  let tag :=
    TAB ++ TAB ++ "echo '<script type=" ++ DQ ++ "module" ++ DQ ++ " src=" ++ DQ ++
    origin ++ "/@vite/client" ++ DQ ++ "></script>' . " ++ DQ ++ "\n" ++ DQ ++ ";" in
  let import :=
    TAB ++ TAB ++ "echo 'import { createHotContext } from " ++ DQ ++
    origin ++ "/@vite/client" ++ DQ ++ ";' . " ++ DQ ++ "\n" ++ DQ ++ ";" in
  exists lines,
    buildPhp new_URL origin options = Some (join LF lines) /\
    nth_error lines 33 = Some tag /\
    includes (join LF lines) tag = true /\
    (events_of options <> [] ->
     nth_error lines 35 = Some import /\ includes (join LF lines) import = true) /\
    (inputs_free_of "@vite/client" origin url options = true ->
     count_occurrences "@vite/client" (join LF lines) =
     match events_of options with [] => 1 | _ :: _ => 2 end).
Proof.
  intros Hu tag import. exists (buildLines origin url options).
  assert (Ht : nth_error (buildLines origin url options) 33 = Some tag)
    by (rewrite buildLines_fragments; reflexivity).
  split; [now apply buildPhp_some|]. split; [exact Ht|].
  split; [exact (in_buildLines _ _ _ _ _ Ht)|]. split.
  - intros He.
    assert (Hi : nth_error (buildLines origin url options) 35 = Some import).
    { rewrite buildLines_fragments. unfold fragments, injector_fragment, injector_body.
      destruct (events_of options) as [|e es]; [congruence | reflexivity]. }
    split; [exact Hi | exact (in_buildLines _ _ _ _ _ Hi)].
  - intros Hf. rewrite inputs_free_count; [|vm_compute; reflexivity | exact Hf].
    needle_constants "@vite/client".
    destruct (events_of options); destruct (policy_of options);
      destruct (csp options) as [[[|]|]|]; cbn [length]; lia.
Qed.

(** X3. The output depends on the options only through the patterns,
    the event names, the policy and the time to live they resolve to:
    an option spelled out with its default is an option left out, and
    [outputDir], [fileName], [cleanup] and [origin] are not read. *)
Theorem output_depends_on_resolved_options
    (origin : string) (options1 options2 : WpHmrOptions) :
  patterns_of options1 = patterns_of options2 ->
  events_of options1 = events_of options2 ->
  policy_of options1 = policy_of options2 ->
  ttl_of options1 = ttl_of options2 ->
  buildPhp new_URL origin options1 = buildPhp new_URL origin options2.
Proof.
  intros Hp He Hc Ht. unfold buildPhp. destruct (new_URL origin) as [url|]; [|reflexivity].
  rewrite !buildLines_fragments.
  unfold fragments, detector_fragment, probe_fragment, injector_fragment.
  now rewrite Hp, He, Hc, Ht.
Qed.


End MoreProperties.

Lemma expected_braces (options : WpHmrOptions) :
  expected_count "{" options = expected_count "}" options.
Proof. needle_constants "{". needle_constants "}". reflexivity. Qed.

Lemma expected_parentheses (options : WpHmrOptions) :
  expected_count "(" options = expected_count ")" options.
Proof. needle_constants "(". needle_constants ")". reflexivity. Qed.

Lemma expected_brackets (options : WpHmrOptions) :
  expected_count "[" options = expected_count "]" options.
Proof. needle_constants "[". needle_constants "]". reflexivity. Qed.

Lemma expected_quotes_even (options : WpHmrOptions) :
  Nat.even (expected_count "'" options) = true.
Proof.
  needle_constants "'".
  destruct (events_of options); destruct (policy_of options);
    destruct (csp options) as [[[|]|]|];
    repeat rewrite ?Nat.even_add, ?Nat.even_mul; cbn [Nat.even length];
    rewrite ?orb_true_r; reflexivity.
Qed.

Lemma expected_double_quotes_even (options : WpHmrOptions) :
  Nat.even (expected_count DQ options) = true.
Proof.
  needle_constants DQ.
  destruct (events_of options); destruct (policy_of options);
    destruct (csp options) as [[[|]|]|];
    repeat rewrite ?Nat.even_add, ?Nat.even_mul; cbn [Nat.even length];
    rewrite ?orb_true_r; reflexivity.
Qed.

Section Syntax.

Variable new_URL : string -> option URL.

(** X5. Braces, parentheses and square brackets are balanced in the
    output: it has as many closing ones as opening ones, when no
    interpolated value holds one. *)
Theorem brackets_are_balanced
    (origin : string) (url : URL) (options : WpHmrOptions) :
  new_URL origin = Some url ->
  exists php,
    buildPhp new_URL origin options = Some php /\
    (inputs_free_of "{" origin url options = true ->
     inputs_free_of "}" origin url options = true ->
     count_occurrences "{" php = count_occurrences "}" php) /\
    (inputs_free_of "(" origin url options = true ->
     inputs_free_of ")" origin url options = true ->
     count_occurrences "(" php = count_occurrences ")" php) /\
    (inputs_free_of "[" origin url options = true ->
     inputs_free_of "]" origin url options = true ->
     count_occurrences "[" php = count_occurrences "]" php).
Proof.
  intros Hu. exists (join LF (buildLines origin url options)).
  split; [now apply buildPhp_some|]. repeat split; intros H1 H2;
    rewrite !inputs_free_count by (assumption || (vm_compute; reflexivity)).
  - apply expected_braces.
  - apply expected_parentheses.
  - apply expected_brackets.
Qed.

(** X6. The single quotes of the output come in pairs, and so do the
    double quotes: each is there an even number of times, when no
    interpolated value holds one. *)
Theorem quotes_come_in_pairs
    (origin : string) (url : URL) (options : WpHmrOptions) :
  new_URL origin = Some url ->
  exists php,
    buildPhp new_URL origin options = Some php /\
    (inputs_free_of "'" origin url options = true ->
     Nat.even (count_occurrences "'" php) = true) /\
    (inputs_free_of DQ origin url options = true ->
     Nat.even (count_occurrences DQ php) = true).
Proof.
  intros Hu. exists (join LF (buildLines origin url options)).
  split; [now apply buildPhp_some|]. split; intros H;
    rewrite inputs_free_count by (assumption || (vm_compute; reflexivity)).
  - apply expected_quotes_even.
  - apply expected_double_quotes_even.
Qed.

(** X7. The output has the opening PHP tag once and no closing tag,
    when no interpolated value holds one. *)
Theorem one_opening_tag_and_no_closing_tag
    (origin : string) (url : URL) (options : WpHmrOptions) :
  new_URL origin = Some url ->
  exists php,
    buildPhp new_URL origin options = Some php /\
    (inputs_free_of "<?php" origin url options = true ->
     count_occurrences "<?php" php = 1) /\
    (inputs_free_of "?>" origin url options = true ->
     includes php "?>" = false).
Proof.
  intros Hu. exists (join LF (buildLines origin url options)).
  split; [now apply buildPhp_some|]. split; intros H.
  - rewrite inputs_free_count by (assumption || (vm_compute; reflexivity)).
    needle_constants "<?php".
    destruct (events_of options); destruct (policy_of options);
      destruct (csp options) as [[[|]|]|]; lia.
  - apply inputs_free_absent; [vm_compute; reflexivity | exact H|].
    needle_constants "?>".
    destruct (events_of options); destruct (policy_of options);
      destruct (csp options) as [[[|]|]|]; lia.
Qed.

End Syntax.

(** ** The plugin and the file it writes *)

Lemma mem_write_read (path content : string) (fs : MemFS) :
  snd (mem_write path content fs) = true ->
  mem_read path (fst (mem_write path content fs)) = Some content.
Proof. intros _. unfold mem_read. cbn. now rewrite String.eqb_refl. Qed.

Lemma mem_remove_read (path : string) (fs : MemFS) :
  snd (mem_remove path fs) = true ->
  mem_read path (fst (mem_remove path fs)) = None.
Proof.
  intros _. unfold mem_read. cbn [mem_remove fst].
  induction fs as [|[p c] fs IH]; [reflexivity|].
  cbn [filter fst]. destruct (String.eqb p path) eqn:E; cbn [negb]; [exact IH|].
  cbn [find fst]. now rewrite E.
Qed.

Section PluginProperties.

Variable new_URL : string -> option URL.
Variable FS : Type.
Variable path_join : string -> string -> string.
Variable mkdirpSync : string -> FS -> FS * bool.
Variable writeFileSync : string -> string -> FS -> FS * bool.
Variable removeSync : string -> FS -> FS * bool.
Variable readFile : string -> FS -> option string.

Local Abbreviation configure :=
  (configureServer new_URL FS path_join mkdirpSync writeFileSync removeSync).
Local Abbreviation phpFile := (phpFile_of path_join).
Local Abbreviation listener_of := (remove_on_close FS removeSync).
Local Abbreviation after := (server_after FS path_join removeSync).

Lemma configureServer_succeeds
    (assigned : option string) (options : WpHmrOptions)
    (server : ViteDevServer FS) (fs : FS) (url : URL) :
  new_URL (origin_argument assigned) = Some url ->
  snd (mkdirpSync (outputDir options) fs) = true ->
  snd (writeFileSync (phpFile options)
         (join LF (buildLines (origin_argument assigned) url options))
         (fst (mkdirpSync (outputDir options) fs))) = true ->
  configure assigned options server fs =
  (fst (writeFileSync (phpFile options)
          (join LF (buildLines (origin_argument assigned) url options))
          (fst (mkdirpSync (outputDir options) fs))),
   Returns (after options server)).
Proof.
  intros Hu Hm Hw. unfold configureServer, server_after.
  rewrite (buildPhp_some _ _ _ _ Hu).
  destruct (mkdirpSync (outputDir options) fs) as [fs1 made].
  cbn [snd fst] in *. subst made. cbn [negb].
  destruct (writeFileSync (phpFile options)
              (join LF (buildLines (origin_argument assigned) url options)) fs1)
    as [fs2 written].
  cbn [snd fst] in *. subst written. cbn [negb].
  destruct (cleanup options) as [[|]|]; try destruct (httpServer server); reflexivity.
Qed.

(** X8. When the [URL] constructor rejects the origin, also that of a
    variable nothing was assigned to, [configureServer] throws before
    it touches the file system: no directory is made, no file
    written. *)
Theorem rejected_origin_leaves_file_system
    (assigned : option string) (options : WpHmrOptions)
    (server : ViteDevServer FS) (fs : FS) :
  new_URL (origin_argument assigned) = None ->
  configure assigned options server fs = (fs, Throws).
Proof.
  intros Hu. unfold configure, configureServer, buildPhp. now rewrite Hu.
Qed.

(** X9. With an origin the [URL] constructor accepts, and a file system
    on which making the directory and writing succeed,
    [configureServer] returns, and the file [fileName] of [outputDir],
    [vite-hmr.php] when [fileName] is left out, then reads as the text
    [buildPhp] generated for the origin. *)
Theorem written_file_is_the_generated_script
    (write_read : forall path content fs,
       snd (writeFileSync path content fs) = true ->
       readFile path (fst (writeFileSync path content fs)) = Some content)
    (assigned : option string) (options : WpHmrOptions)
    (server : ViteDevServer FS) (fs : FS) (url : URL) :
  new_URL (origin_argument assigned) = Some url ->
  snd (mkdirpSync (outputDir options) fs) = true ->
  (forall content,
     snd (writeFileSync (phpFile options) content
            (fst (mkdirpSync (outputDir options) fs))) = true) ->
  exists php fs' server',
    buildPhp new_URL (origin_argument assigned) options = Some php /\
    configure assigned options server fs = (fs', Returns server') /\
    readFile
      (path_join (outputDir options)
         match fileName options with Some f => f | None => "vite-hmr.php" end) fs' =
    Some php.
Proof.
  intros Hu Hm Hw.
  exists (join LF (buildLines (origin_argument assigned) url options)).
  eexists. eexists. split; [now apply buildPhp_some|].
  split; [apply (configureServer_succeeds _ _ _ _ _ Hu Hm (Hw _))|].
  apply write_read, Hw.
Qed.

(** X13. The script the plugin writes loads the client from the origin
    [configResolved] assigned: the [origin] option when it is given and
    not empty, and otherwise [http://localhost:] or [https://localhost:],
    as [config.server.https] is set, with [config.server.port] or
    5173. *)
Theorem written_script_loads_client_from_resolved_origin
    (write_read : forall path content fs,
       snd (writeFileSync path content fs) = true ->
       readFile path (fst (writeFileSync path content fs)) = Some content)
    (options : WpHmrOptions) (config : ResolvedConfig)
    (server : ViteDevServer FS) (fs : FS) (url : URL) :
  let resolved := configResolved options config in
  new_URL resolved = Some url ->
  snd (mkdirpSync (outputDir options) fs) = true ->
  (forall content,
     snd (writeFileSync (phpFile options) content
            (fst (mkdirpSync (outputDir options) fs))) = true) ->
  exists php fs' server',
    configure (Some resolved) options server fs = (fs', Returns server') /\
    readFile (phpFile options) fs' = Some php /\
    includes php
      ("<script type=" ++ DQ ++ "module" ++ DQ ++ " src=" ++ DQ ++ resolved ++
       "/@vite/client" ++ DQ ++ "></script>") = true /\
    (forall given, origin options = Some given -> given <> "" -> resolved = given) /\
    (origin options = None \/ origin options = Some "" ->
     let port := match server_port config with Some p => p | None => 5173%Z end in
     is_safe_integer port = true ->
     resolved =
     (if server_https config then "https" else "http") ++ "://localhost:" ++
     number_to_string port).
Proof.
  intros resolved Hu Hm Hw.
  exists (join LF (buildLines resolved url options)).
  eexists. eexists.
  split; [apply (configureServer_succeeds (Some resolved) _ _ _ _ Hu Hm (Hw _))|].
  split; [apply write_read, Hw|]. split; [|split].
  - assert (Ht : includes (join LF (buildLines resolved url options))
                   (TAB ++ TAB ++ "echo '<script type=" ++ DQ ++ "module" ++ DQ ++ " src=" ++
                    DQ ++ resolved ++ "/@vite/client" ++ DQ ++ "></script>' . " ++ DQ ++
                    "\n" ++ DQ ++ ";") = true).
    { apply (in_buildLines 33). rewrite buildLines_fragments. reflexivity. }
    destruct (includes (join LF (buildLines resolved url options))
                ("<script type=" ++ DQ ++ "module" ++ DQ ++ " src=" ++ DQ ++ resolved ++
                 "/@vite/client" ++ DQ ++ "></script>")) eqn:E; [reflexivity|].
    assert (Hs : includes
                   (TAB ++ TAB ++ "echo '<script type=" ++ DQ ++ "module" ++ DQ ++ " src=" ++
                    DQ ++ resolved ++ "/@vite/client" ++ DQ ++ "></script>' . " ++ DQ ++
                    "\n" ++ DQ ++ ";")
                   ("<script type=" ++ DQ ++ "module" ++ DQ ++ " src=" ++ DQ ++ resolved ++
                    "/@vite/client" ++ DQ ++ "></script>") = true).
    { apply includes_iff. exists (TAB ++ TAB ++ "echo '"), ("' . " ++ DQ ++ "\n" ++ DQ ++ ";").
      rewrite ?append_assoc. reflexivity. }
    pose proof (includes_trans _ _ _ Hs E) as X.
    congruence.
  - intros given Hg Hne. unfold resolved, configResolved. rewrite Hg.
    destruct given; [congruence | reflexivity].
  - intros [Hn|Hn] port _; unfold resolved, configResolved; rewrite Hn; reflexivity.
Qed.

(** X10. After [configureServer] returned with [cleanup] not [false] and
    an HTTP server, closing the server runs the listeners that were
    there and then removes the file that was written; it does not
    throw, and when the removal succeeded the file is gone. *)
Theorem close_removes_the_written_file
    (remove_read : forall path fs,
       snd (removeSync path fs) = true ->
       readFile path (fst (removeSync path fs)) = None)
    (assigned : option string) (options : WpHmrOptions)
    (server server' : ViteDevServer FS) (fs fs' : FS) (listeners : list (FS -> FS)) :
  configure assigned options server fs = (fs', Returns server') ->
  cleanup options <> Some false ->
  httpServer server = Some listeners ->
  forall later : FS,
    close server' later = fst (removeSync (phpFile options) (close server later)) /\
    (snd (removeSync (phpFile options) (close server later)) = true ->
     readFile (phpFile options) (close server' later) = None).
Proof.
  intros Hc Hcl Hs later. unfold configureServer in Hc.
  destruct (buildPhp new_URL (origin_argument assigned) options) as [php|];
    [|discriminate].
  destruct (mkdirpSync (outputDir options) fs) as [fs1 [|]]; cbn [negb] in Hc;
    [|discriminate].
  destruct (writeFileSync (phpFile options) php fs1) as [fs2 [|]]; cbn [negb] in Hc;
    [|discriminate].
  assert (Hs' : server' = mkServer (Some (listeners +++ [listener_of (phpFile options)]))).
  { destruct (cleanup options) as [[|]|]; try congruence;
      rewrite Hs in Hc; now injection Hc as _ <-. }
  assert (E : close server' later =
              fst (removeSync (phpFile options) (close server later))).
  { subst server'. unfold close. rewrite Hs. cbn [httpServer].
    now rewrite fold_left_app. }
  split; [exact E|]. intros Hr. rewrite E. now apply remove_read.
Qed.

(** X11. With [cleanup === false], or without an HTTP server,
    [configureServer] registers nothing: the server is returned as it
    was, and closing it leaves the written file to the listeners that
    were there. *)
Theorem no_cleanup_registers_nothing
    (assigned : option string) (options : WpHmrOptions)
    (server server' : ViteDevServer FS) (fs fs' : FS) :
  configure assigned options server fs = (fs', Returns server') ->
  cleanup options = Some false \/ httpServer server = None ->
  server' = server /\ forall later, close server' later = close server later.
Proof.
  intros Hc Hn. unfold configureServer in Hc.
  destruct (buildPhp new_URL (origin_argument assigned) options) as [php|];
    [|discriminate].
  destruct (mkdirpSync (outputDir options) fs) as [fs1 [|]]; cbn [negb] in Hc;
    [|discriminate].
  destruct (writeFileSync (phpFile options) php fs1) as [fs2 [|]]; cbn [negb] in Hc;
    [|discriminate].
  assert (E : server' = server).
  { destruct Hn as [Hn|Hn]; rewrite Hn in Hc.
    - now injection Hc as _ <-.
    - destruct (cleanup options) as [[|]|]; now injection Hc as _ <-. }
  split; [exact E | now rewrite E].
Qed.

(** X12. [configureServer] returns only after the origin was accepted,
    the directory made and the file written.  It throws in three cases
    only: the origin is rejected, and the file system is untouched; the
    directory cannot be made, and nothing is written; the write fails.
    In none of them is a listener registered. *)
Theorem configureServer_returns_only_after_the_write
    (assigned : option string) (options : WpHmrOptions)
    (server : ViteDevServer FS) (fs : FS) :
  (forall fs' server',
     configure assigned options server fs = (fs', Returns server') ->
     exists php,
       buildPhp new_URL (origin_argument assigned) options = Some php /\
       snd (mkdirpSync (outputDir options) fs) = true /\
       writeFileSync (phpFile options) php (fst (mkdirpSync (outputDir options) fs)) =
       (fs', true)) /\
  (forall fs',
     configure assigned options server fs = (fs', Throws) ->
     (new_URL (origin_argument assigned) = None /\ fs' = fs) \/
     (mkdirpSync (outputDir options) fs = (fs', false)) \/
     (exists php,
        buildPhp new_URL (origin_argument assigned) options = Some php /\
        snd (mkdirpSync (outputDir options) fs) = true /\
        writeFileSync (phpFile options) php (fst (mkdirpSync (outputDir options) fs)) =
        (fs', false))).
Proof.
  unfold configureServer. split.
  - intros fs' server' Hc.
    destruct (buildPhp new_URL (origin_argument assigned) options) as [php|];
      [|discriminate]. exists php. split; [reflexivity|].
    destruct (mkdirpSync (outputDir options) fs) as [fs1 [|]]; cbn [negb] in Hc;
      [|discriminate]. split; [reflexivity|]. cbn [fst].
    destruct (writeFileSync (phpFile options) php fs1) as [fs2 [|]]; cbn [negb] in Hc;
      [|discriminate].
    destruct (cleanup options) as [[|]|]; try destruct (httpServer server);
      now injection Hc as <- _.
  - intros fs' Hc.
    destruct (buildPhp new_URL (origin_argument assigned) options) as [php|] eqn:Eb.
    + destruct (mkdirpSync (outputDir options) fs) as [fs1 [|]]; cbn [negb] in Hc.
      * right. right. exists php. split; [reflexivity|]. split; [reflexivity|].
        cbn [fst].
        destruct (writeFileSync (phpFile options) php fs1) as [fs2 [|]];
          cbn [negb] in Hc.
        -- destruct (cleanup options) as [[|]|]; try destruct (httpServer server);
             discriminate.
        -- now injection Hc as <-.
      * right. left. now injection Hc as <-.
    + left. injection Hc as <-. split; [|reflexivity].
      unfold buildPhp in Eb.
      destruct (new_URL (origin_argument assigned)); [discriminate | reflexivity].
Qed.

End PluginProperties.

(** ** The further properties at the inputs of the test suite *)

Lemma output_opens_with_tag_witness :
  test_URL "http://localhost:5173" = Some localhost_5173 /\
  exists php,
    buildPhp test_URL "http://localhost:5173" (with_csp (CspBool false) opts) = Some php /\
    starts_with php ("<?php" ++ LF) = true /\
    ends_with php (INJECT_REGISTRATION ++ LF) = true.
Proof.
  split; [reflexivity|].
  exact (output_opens_with_tag_and_ends_with_registration test_URL
           "http://localhost:5173" localhost_5173 (with_csp (CspBool false) opts) eq_refl).
Defined.

Lemma client_is_loaded_from_the_origin_witness :
  let options := with_cssReloadEvents ["my-css-update"] opts in
  test_URL "http://localhost:5173" = Some localhost_5173 /\
  events_of options <> [] /\
  inputs_free_of "@vite/client" "http://localhost:5173" localhost_5173 options = true /\
  exists php,
    buildPhp test_URL "http://localhost:5173" options = Some php /\
    count_occurrences "@vite/client" php = 2.
Proof.
  intros options.
  split; [reflexivity|]. split; [discriminate|]. split; [vm_compute; reflexivity|].
  destruct (client_is_loaded_from_the_origin test_URL "http://localhost:5173"
              localhost_5173 options eq_refl) as (lines & E & _ & _ & _ & H).
  exists (join LF lines).
  split; [exact E|]. apply H. vm_compute. reflexivity.
Defined.

Lemma output_depends_on_resolved_options_witness :
  patterns_of opts = patterns_of explicit_defaults /\
  events_of opts = events_of explicit_defaults /\
  policy_of opts = policy_of explicit_defaults /\
  ttl_of opts = ttl_of explicit_defaults /\
  opts <> explicit_defaults /\
  buildPhp test_URL "http://localhost:5173" opts =
  buildPhp test_URL "http://localhost:5173" explicit_defaults.
Proof.
  split; [reflexivity|]. split; [reflexivity|]. split; [reflexivity|].
  split; [reflexivity|]. split; [discriminate|].
  exact (output_depends_on_resolved_options test_URL "http://localhost:5173"
           opts explicit_defaults eq_refl eq_refl eq_refl eq_refl).
Defined.


Lemma brackets_are_balanced_witness :
  let options := with_cssReloadEvents ["my-css-update"] opts in
  test_URL "http://localhost:5173" = Some localhost_5173 /\
  forallb (fun bracket =>
             inputs_free_of bracket "http://localhost:5173" localhost_5173 options)
    ["{"; "}"; "("; ")"; "["; "]"] = true /\
  exists php,
    buildPhp test_URL "http://localhost:5173" options = Some php /\
    count_occurrences "{" php = count_occurrences "}" php /\
    count_occurrences "(" php = count_occurrences ")" php /\
    count_occurrences "[" php = count_occurrences "]" php.
Proof.
  intros options.
  split; [reflexivity|]. split; [vm_compute; reflexivity|].
  destruct (brackets_are_balanced test_URL "http://localhost:5173" localhost_5173
              options eq_refl) as (php & E & H1 & H2 & H3).
  exists php. split; [exact E|].
  split; [apply H1; vm_compute; reflexivity|].
  split; [apply H2; vm_compute; reflexivity|].
  apply H3; vm_compute; reflexivity.
Defined.

Lemma quotes_come_in_pairs_witness :
  let options := with_devPatterns ["example.org"] opts in
  test_URL "https://mysite.local" = Some mysite_local /\
  inputs_free_of "'" "https://mysite.local" mysite_local options = true /\
  inputs_free_of DQ "https://mysite.local" mysite_local options = true /\
  exists php,
    buildPhp test_URL "https://mysite.local" options = Some php /\
    Nat.even (count_occurrences "'" php) = true /\
    Nat.even (count_occurrences DQ php) = true.
Proof.
  intros options.
  split; [reflexivity|]. split; [vm_compute; reflexivity|].
  split; [vm_compute; reflexivity|].
  destruct (quotes_come_in_pairs test_URL "https://mysite.local" mysite_local
              options eq_refl) as (php & E & H1 & H2).
  exists php. split; [exact E|].
  split; [apply H1 | apply H2]; vm_compute; reflexivity.
Defined.

Lemma one_opening_tag_witness :
  test_URL "http://localhost:5173" = Some localhost_5173 /\
  inputs_free_of "<?php" "http://localhost:5173" localhost_5173 opts = true /\
  inputs_free_of "?>" "http://localhost:5173" localhost_5173 opts = true /\
  exists php,
    buildPhp test_URL "http://localhost:5173" opts = Some php /\
    count_occurrences "<?php" php = 1 /\
    includes php "?>" = false.
Proof.
  split; [reflexivity|]. split; [vm_compute; reflexivity|].
  split; [vm_compute; reflexivity|].
  destruct (one_opening_tag_and_no_closing_tag test_URL "http://localhost:5173"
              localhost_5173 opts eq_refl) as (php & E & H1 & H2).
  exists php. split; [exact E|].
  split; [apply H1 | apply H2]; vm_compute; reflexivity.
Defined.

(** The plugin over the file system in memory. *)

Lemma rejected_origin_witness :
  test_URL (origin_argument None) = None /\
  configureServer test_URL MemFS posix_join mem_mkdirp mem_write mem_remove
    None opts (mkServer (Some [])) [] = ([], Throws).
Proof.
  split; [reflexivity|].
  exact (rejected_origin_leaves_file_system test_URL MemFS posix_join mem_mkdirp
           mem_write mem_remove None opts (mkServer (Some [])) [] eq_refl).
Defined.

Lemma written_file_witness :
  test_URL (origin_argument (Some "http://localhost:5173")) = Some localhost_5173 /\
  snd (mem_mkdirp (outputDir opts) []) = true /\
  exists php fs' server',
    buildPhp test_URL "http://localhost:5173" opts = Some php /\
    configureServer test_URL MemFS posix_join mem_mkdirp mem_write mem_remove
      (Some "http://localhost:5173") opts (mkServer (Some [])) [] =
    (fs', Returns server') /\
    mem_read "/tmp/mu-plugins/vite-hmr.php" fs' = Some php.
Proof.
  split; [reflexivity|]. split; [reflexivity|].
  exact (written_file_is_the_generated_script test_URL MemFS posix_join mem_mkdirp
           mem_write mem_remove mem_read mem_write_read
           (Some "http://localhost:5173") opts (mkServer (Some [])) [] localhost_5173
           eq_refl eq_refl (fun _ => eq_refl)).
Defined.

Lemma resolved_origin_witness :
  let config := mkConfig false None in
  configResolved opts config = "http://localhost:5173" /\
  test_URL (configResolved opts config) = Some localhost_5173 /\
  exists php fs' server',
    configureServer test_URL MemFS posix_join mem_mkdirp mem_write mem_remove
      (Some "http://localhost:5173") opts (mkServer (Some [])) [] =
    (fs', Returns server') /\
    mem_read "/tmp/mu-plugins/vite-hmr.php" fs' = Some php /\
    includes php
      ("<script type=" ++ DQ ++ "module" ++ DQ ++ " src=" ++ DQ ++
       "http://localhost:5173/@vite/client" ++ DQ ++ "></script>") = true.
Proof.
  intros config. split; [reflexivity|]. split; [reflexivity|].
  destruct (written_script_loads_client_from_resolved_origin test_URL MemFS posix_join
              mem_mkdirp mem_write mem_remove mem_read mem_write_read
              opts config (mkServer (Some [])) [] localhost_5173
              eq_refl eq_refl (fun _ => eq_refl))
    as (php & fs' & server' & H1 & H2 & H3 & _).
  exists php, fs', server'. split; [exact H1|]. split; [exact H2 | exact H3].
Defined.

Lemma close_removes_the_written_file_witness :
  let server := mkServer (Some []) in
  let server' :=
    mkServer (Some [remove_on_close MemFS mem_remove "/tmp/mu-plugins/vite-hmr.php"]) in
  exists fs',
    configureServer test_URL MemFS posix_join mem_mkdirp mem_write mem_remove
      (Some "http://localhost:5173") opts server [] = (fs', Returns server') /\
    cleanup opts <> Some false /\
    mem_read "/tmp/mu-plugins/vite-hmr.php" fs' <> None /\
    mem_read "/tmp/mu-plugins/vite-hmr.php" (close server' fs') = None.
Proof.
  intros server server'.
  exists [("/tmp/mu-plugins/vite-hmr.php",
           join LF (buildLines "http://localhost:5173" localhost_5173 opts))].
  assert (Hc : configureServer test_URL MemFS posix_join mem_mkdirp mem_write mem_remove
                 (Some "http://localhost:5173") opts server [] =
               ([("/tmp/mu-plugins/vite-hmr.php",
                  join LF (buildLines "http://localhost:5173" localhost_5173 opts))],
                Returns server')) by reflexivity.
  assert (Hn : cleanup opts <> Some false) by discriminate.
  split; [exact Hc|]. split; [exact Hn|]. split; [discriminate|].
  destruct (close_removes_the_written_file test_URL MemFS posix_join mem_mkdirp
              mem_write mem_remove mem_read mem_remove_read
              (Some "http://localhost:5173") opts server server' [] _ [] Hc Hn eq_refl
              [("/tmp/mu-plugins/vite-hmr.php",
                join LF (buildLines "http://localhost:5173" localhost_5173 opts))])
    as [_ Hgone].
  apply Hgone. reflexivity.
Defined.

Lemma no_cleanup_witness :
  let server := mkServer (Some []) in
  exists fs',
    configureServer test_URL MemFS posix_join mem_mkdirp mem_write mem_remove
      (Some "http://localhost:5173") explicit_defaults server [] =
    (fs', Returns server) /\
    cleanup explicit_defaults = Some false /\
    mem_read "/var/www/mu-plugins/hmr.php" (close server fs') <> None.
Proof.
  intros server.
  exists [("/var/www/mu-plugins/hmr.php",
           join LF (buildLines "http://localhost:5173" localhost_5173 explicit_defaults))].
  assert (Hc : configureServer test_URL MemFS posix_join mem_mkdirp mem_write mem_remove
                 (Some "http://localhost:5173") explicit_defaults server [] =
               ([("/var/www/mu-plugins/hmr.php",
                  join LF (buildLines "http://localhost:5173" localhost_5173
                             explicit_defaults))],
                Returns server)) by reflexivity.
  split; [exact Hc|]. split; [reflexivity|].
  destruct (no_cleanup_registers_nothing test_URL MemFS posix_join mem_mkdirp
              mem_write mem_remove (Some "http://localhost:5173") explicit_defaults
              server server [] _ Hc (or_introl eq_refl)) as [_ H].
  discriminate.
Defined.

(** ** Every place of a needle *)

Lemma positions_length (n s : list ascii) (i : nat) :
  length (positions n s i) = countL n s.
Proof.
  revert i. induction s as [|c s IH]; intros i; [reflexivity|].
  cbn [positions countL]. rewrite length_app, IH.
  now destruct (prefixL n (c :: s)).
Qed.

Lemma positions_ge (n s : list ascii) (i p : nat) :
  In p (positions n s i) -> i <= p.
Proof.
  revert i. induction s as [|c s IH]; intros i; [intros []|].
  cbn [positions]. intros H. apply in_app_or in H as [H|H].
  - destruct (prefixL n (c :: s)); [|destruct H]. destruct H as [<-|[]]. lia.
  - apply IH in H. lia.
Qed.

Lemma positions_NoDup (n s : list ascii) (i : nat) : NoDup (positions n s i).
Proof.
  revert i. induction s as [|c s IH]; intros i; [constructor|].
  cbn [positions]. apply NoDup_app; [| apply IH |].
  - destruct (prefixL n (c :: s)); repeat constructor. intros [].
  - intros p Hp Hq. apply positions_ge in Hq.
    destruct (prefixL n (c :: s)); [|destruct Hp]. destruct Hp as [<-|[]]. lia.
Qed.

Lemma positions_intro (n a b : list ascii) (i : nat) :
  n <> [] -> In (i + length a) (positions n (a +++ n +++ b) i).
Proof.
  intros Hn. revert i. induction a as [|c a IH]; intros i.
  - cbn [app length]. destruct n as [|x n]; [congruence|].
    change ((x :: n) +++ b) with (x :: (n +++ b)). cbn [positions].
    change (x :: (n +++ b)) with ((x :: n) +++ b).
    assert (H : prefixL (x :: n) ((x :: n) +++ b) = true)
      by (apply prefixL_spec; now exists b).
    rewrite H. left. lia.
  - change ((c :: a) +++ n +++ b) with (c :: (a +++ n +++ b)). cbn [positions length].
    apply in_or_app. right. replace (i + S (length a)) with (S i + length a) by lia.
    apply IH.
Qed.

Lemma positions_elim (n s : list ascii) (i p : nat) :
  In p (positions n s i) -> exists a b, s = a +++ n +++ b /\ p = i + length a.
Proof.
  revert i. induction s as [|c s IH]; intros i; [intros []|].
  cbn [positions]. intros H. apply in_app_or in H as [H|H].
  - destruct (prefixL n (c :: s)) eqn:E; [|destruct H]. destruct H as [<-|[]].
    apply prefixL_spec in E as [y E]. exists [], y. split; [exact E | cbn; lia].
  - destruct (IH _ H) as (a & b & -> & ->). exists (c :: a), b.
    split; [reflexivity | cbn [length]; lia].
Qed.

Lemma occurrences_in_length (y s : list ascii) (c : Setting) :
  length (occurrences_in y s c) =
  countL (chars (before c) +++ y +++ chars (after c)) s.
Proof. unfold occurrences_in. now rewrite length_map, positions_length. Qed.

Lemma occurrences_in_elim (y s : list ascii) (c : Setting) (p : nat) :
  In p (occurrences_in y s c) ->
  exists a b,
    s = (a +++ chars (before c)) +++ y +++ (chars (after c) +++ b) /\
    p = length (a +++ chars (before c)).
Proof.
  unfold occurrences_in. intros H. apply in_map_iff in H as (q & <- & H).
  apply positions_elim in H as (a & b & -> & ->). exists a, b.
  rewrite <- !app_assoc, length_app. split; [reflexivity | lia].
Qed.

Lemma occurrences_in_positions (y s : list ascii) (c : Setting) :
  y <> [] -> incl (occurrences_in y s c) (positions y s 0).
Proof.
  intros Hy p H. apply occurrences_in_elim in H as (a & b & -> & ->).
  apply (positions_intro y _ _ 0 Hy).
Qed.

Lemma occurrences_in_NoDup (y s : list ascii) (c : Setting) :
  NoDup (occurrences_in y s c).
Proof.
  unfold occurrences_in. apply NoDup_map_NoDup_ForallPairs; [|apply positions_NoDup].
  intros p q _ _ H. lia.
Qed.

(** Two splits of one text at one place. *)
Lemma same_split {A : Type} (a1 b1 a2 b2 : list A) :
  a1 +++ b1 = a2 +++ b2 -> length a1 = length a2 -> a1 = a2 /\ b1 = b2.
Proof.
  revert a2. induction a1 as [|x a1 IH]; intros [|z a2] E L; try discriminate.
  - now split.
  - injection E as -> E. injection L as L. destruct (IH _ E L) as [-> ->]. now split.
Qed.

Lemma apart_sound (y s : list ascii) (c1 c2 : Setting) (p : nat) :
  apart c1 c2 = true ->
  In p (occurrences_in y s c1) -> ~ In p (occurrences_in y s c2).
Proof.
  intros Ha H1 H2.
  apply occurrences_in_elim in H1 as (a1 & b1 & E1 & ->).
  apply occurrences_in_elim in H2 as (a2 & b2 & E2 & L).
  rewrite E1 in E2. destruct (same_split _ _ _ _ E2 L) as [Ea Eb].
  apply app_inv_head in Eb.
  unfold apart in Ha. apply orb_true_iff in Ha as [Ha|Ha]; apply negb_true_iff in Ha.
  - apply (f_equal (@rev ascii)) in Ea. rewrite !rev_app_distr in Ea.
    symmetry in Ea. rewrite (compatL_of_eq _ _ _ _ Ea) in Ha. discriminate.
  - symmetry in Eb. rewrite (compatL_of_eq _ _ _ _ Eb) in Ha. discriminate.
Qed.

Lemma all_occurrences_NoDup (y s : list ascii) (settings : list Setting) :
  all_apart settings = true -> NoDup (flat_map (occurrences_in y s) settings).
Proof.
  induction settings as [|c rest IH]; [constructor|].
  cbn [all_apart flat_map]. intros H. apply andb_true_iff in H as [Hc Hr].
  apply NoDup_app; [apply occurrences_in_NoDup | now apply IH |].
  intros p Hp Hq. apply in_flat_map in Hq as (c2 & Hin & Hq).
  rewrite forallb_forall in Hc. exact (apart_sound _ _ _ _ _ (Hc _ Hin) Hp Hq).
Qed.

(** When the settings are apart, and the needle stands in them as often
    as it stands in the text, each place of the needle stands in one of
    the settings. *)
Lemma occurrences_covered (y s : list ascii) (settings : list Setting) :
  y <> [] ->
  all_apart settings = true ->
  countL y s <=
  list_sum (map (fun c => countL (chars (before c) +++ y +++ chars (after c)) s) settings) ->
  forall a b,
    s = a +++ y +++ b ->
    exists c a' b',
      In c settings /\ a = a' +++ chars (before c) /\ b = chars (after c) +++ b'.
Proof.
  intros Hy Ha Hc a b E.
  assert (Hincl : incl (flat_map (occurrences_in y s) settings) (positions y s 0)).
  { intros p H. apply in_flat_map in H as (c & _ & H).
    now apply (occurrences_in_positions y s c Hy). }
  assert (Hlen : length (positions y s 0) <=
                 length (flat_map (occurrences_in y s) settings)).
  { rewrite positions_length, length_flat_map.
    erewrite map_ext; [exact Hc|]. intros c. apply occurrences_in_length. }
  pose proof (NoDup_length_incl (all_occurrences_NoDup y s settings Ha) Hlen Hincl) as Hall.
  assert (Hp : In (0 + length a) (positions y s 0))
    by (rewrite E; now apply positions_intro).
  apply Hall in Hp. apply in_flat_map in Hp as (c & Hin & Hp).
  apply occurrences_in_elim in Hp as (a' & b' & E' & L).
  rewrite E in E'. cbn [Nat.add] in L. destruct (same_split _ _ _ _ E' L) as [-> Eb].
  apply app_inv_head in Eb. now exists c, a', b'.
Qed.

(** The same for strings. *)
Lemma every_occurrence (y s : string) (settings : list Setting) :
  y <> "" ->
  all_apart settings = true ->
  count_occurrences y s <=
  list_sum (map (fun c => count_occurrences (in_setting y c) s) settings) ->
  forall a b,
    s = a ++ y ++ b ->
    exists c,
      In c settings /\ ends_with a (before c) = true /\ starts_with b (after c) = true.
Proof.
  intros Hy Ha Hc a b E.
  destruct (occurrences_covered (chars y) (chars s) settings) with (a := chars a) (b := chars b)
    as (c & a' & b' & Hin & Ea & Eb).
  - intros H. apply Hy. now apply chars_nil.
  - exact Ha.
  - unfold count_occurrences in Hc. erewrite map_ext; [exact Hc|].
    intros c. cbn beta. unfold in_setting. now rewrite !chars_app.
  - rewrite E. now rewrite !chars_app.
  - exists c. split; [exact Hin|]. unfold ends_with, starts_with. split.
    + rewrite Ea, rev_app_distr. apply prefixL_spec. now exists (rev a').
    + rewrite Eb. apply prefixL_spec. now exists b'.
Qed.

(** ** The port of the probe *)

Lemma port_digits_of_nonempty (p : N) : port_digits_of p <> "".
Proof. unfold port_digits_of. now destruct (N.to_uint p). Qed.

Lemma resolved_port_kept (url : URL) (p : N) :
  port_number url = Some p -> resolved_port url = port_digits_of p.
Proof.
  intros H. unfold resolved_port, port. rewrite H. fold (port_digits_of p).
  pose proof (port_digits_of_nonempty p) as Hn. apply String.eqb_neq in Hn.
  now rewrite Hn.
Qed.

Lemma resolved_port_dropped (url : URL) :
  port_number url = None ->
  resolved_port url = if (protocol url =? "https:")%string then "443" else "80".
Proof. intros H. unfold resolved_port, port. now rewrite H. Qed.

Lemma parsed_port_kept (protocol : string) (p : N) :
  default_port protocol <> Some p -> parsed_port protocol (Some p) = Some p.
Proof.
  intros H. unfold parsed_port. destruct (default_port protocol) as [d|]; [|reflexivity].
  destruct (N.eqb_spec p d) as [->|]; [congruence | reflexivity].
Qed.

Lemma parsed_port_dropped (protocol : string) (p : N) :
  default_port protocol = Some p -> parsed_port protocol (Some p) = None.
Proof. intros H. unfold parsed_port. now rewrite H, N.eqb_refl. Qed.

Section Probe.

Variable new_URL : string -> option URL.

(** C4, as amended.  The probe connects to the host name of the URL
    object and to its port, and to 443 under [https:] and 80 otherwise
    when the URL object has no port.  With a URL object whose port
    follows the URL Standard, this is the port the origin spells out
    unless that is the default of the scheme, 443 or 80 as above for an
    origin that spells out none, and the port of the origin in every
    case under [http:] and [https:]; an origin that spells out the
    default port of another scheme gets 443 or 80 as above. *)
Theorem probe_uses_URL_host_and_port
    (origin : string) (url : URL) (options : WpHmrOptions) :
  new_URL origin = Some url ->
  let literal := resolved_port url in
  let otherwise := if (protocol url =? "https:")%string then "443" else "80" in
  buildPhp new_URL origin options = Some (join LF (buildLines origin url options)) /\
  nth_error (buildLines origin url options) 22 =
    Some (TAB ++ TAB ++ "$conn   = @fsockopen( '" ++ hostname url ++ "', " ++
          literal ++ ", $errno, $errstr, 1 );") /\
  includes (join LF (buildLines origin url options))
    (TAB ++ TAB ++ "$conn   = @fsockopen( '" ++ hostname url ++ "', " ++
     literal ++ ", $errno, $errstr, 1 );") = true /\
  (forall p, port_number url = Some p -> literal = port_digits_of p) /\
  (port_number url = None -> literal = otherwise) /\
  (forall explicit,
     port_number url = parsed_port (protocol url) explicit ->
     (forall p, explicit = Some p -> default_port (protocol url) <> Some p ->
        literal = port_digits_of p) /\
     (explicit = None -> literal = otherwise) /\
     (protocol url = "http:" \/ protocol url = "https:" ->
      forall p, origin_port (protocol url) explicit = Some p ->
        literal = port_digits_of p) /\
     (forall p, explicit = Some p -> default_port (protocol url) = Some p ->
        literal = otherwise)).
Proof.
  intros Hu literal otherwise.
  assert (Hn : nth_error (buildLines origin url options) 22 =
               Some (TAB ++ TAB ++ "$conn   = @fsockopen( '" ++ hostname url ++ "', " ++
                     literal ++ ", $errno, $errstr, 1 );"))
    by (rewrite buildLines_fragments; reflexivity).
  split; [now apply buildPhp_some|]. split; [exact Hn|].
  split; [exact (in_buildLines _ _ _ _ _ Hn)|].
  split; [intros p; apply resolved_port_kept|].
  split; [apply resolved_port_dropped|].
  intros explicit Hp. repeat split.
  - intros p -> Hd. rewrite (parsed_port_kept _ _ Hd) in Hp.
    now apply resolved_port_kept.
  - intros ->. now apply resolved_port_dropped.
  - intros Hs p Ho. unfold literal.
    destruct explicit as [q|]; cbn [origin_port] in Ho.
    + injection Ho as <-. unfold parsed_port in Hp.
      destruct Hs as [Hs|Hs]; rewrite Hs in Hp;
        [change (default_port "http:") with (Some 80%N) in Hp
        |change (default_port "https:") with (Some 443%N) in Hp];
        cbv beta iota in Hp;
        match type of Hp with
        | context [(?x =? ?d)%N] => destruct (N.eqb_spec x d) as [E|E]
        end;
        try (now apply resolved_port_kept);
        rewrite (resolved_port_dropped _ Hp), Hs, E; reflexivity.
    + cbn [parsed_port] in Hp. rewrite (resolved_port_dropped _ Hp).
      destruct Hs as [Hs|Hs]; rewrite Hs in Ho |- *;
        [change (default_port "http:") with (Some 80%N) in Ho
        |change (default_port "https:") with (Some 443%N) in Ho];
        injection Ho as <-; reflexivity.
  - intros p -> Hd. rewrite (parsed_port_dropped _ _ Hd) in Hp.
    now apply resolved_port_dropped.
Qed.

End Probe.

(** C4 fails as it is stated: the URL object of [wss://localhost:443]
    has no port, and the probe connects to port 80, which is not the
    port of the origin. *)
Lemma probe_claim_fails :
  let url := mkURL "wss:" "localhost" None in
  default_port_URL "wss://localhost:443" = Some url /\
  port_number url = parsed_port "wss:" (Some 443%N) /\
  exists lines,
    buildPhp default_port_URL "wss://localhost:443" opts = Some (join LF lines) /\
    nth_error lines 22 =
      Some (TAB ++ TAB ++ "$conn   = @fsockopen( 'localhost', 80, $errno, $errstr, 1 );") /\
    includes (join LF lines) "fsockopen( 'localhost', 443," = false /\
    count_occurrences "fsockopen(" (join LF lines) = 1.
Proof.
  cbn zeta. split; [reflexivity|]. split; [reflexivity|].
  exists (buildLines "wss://localhost:443" (mkURL "wss:" "localhost" None) opts).
  split; [reflexivity|]. repeat split; vm_compute; reflexivity.
Qed.

Lemma probe_uses_URL_host_and_port_witness :
  test_URL "https://mysite.local:3000" = Some mysite_local_3000 /\
  port_number mysite_local_3000 = parsed_port "https:" (Some 3000%N) /\
  nth_error (buildLines "https://mysite.local:3000" mysite_local_3000 opts) 22 =
    Some (TAB ++ TAB ++ "$conn   = @fsockopen( 'mysite.local', 3000, $errno, $errstr, 1 );") /\
  resolved_port mysite_local_3000 = port_digits_of 3000 /\
  test_URL "https://mysite.local" = Some mysite_local /\
  port_number mysite_local = parsed_port "https:" None /\
  nth_error (buildLines "https://mysite.local" mysite_local opts) 22 =
    Some (TAB ++ TAB ++ "$conn   = @fsockopen( 'mysite.local', 443, $errno, $errstr, 1 );").
Proof.
  split; [reflexivity|]. split; [reflexivity|].
  destruct (probe_uses_URL_host_and_port test_URL "https://mysite.local:3000"
              mysite_local_3000 opts eq_refl) as (_ & H & _ & _ & _ & Hs).
  split; [exact H|].
  destruct (Hs (Some 3000%N) eq_refl) as (Hk & _).
  split; [apply (Hk 3000%N eq_refl); discriminate|].
  split; [reflexivity|]. split; [reflexivity|].
  destruct (probe_uses_URL_host_and_port test_URL "https://mysite.local"
              mysite_local opts eq_refl) as (_ & H' & _).
  exact H'.
Defined.

(** ** Guards, functions and registrations *)

Lemma list_sum_ones {A : Type} (f : A -> nat) (l : list A) :
  Forall (fun x => 1 <= f x) l -> length l <= list_sum (map f l).
Proof.
  induction 1 as [|x l Hx _ IH]; [reflexivity|]. simpl. lia.
Qed.

Lemma nth_error_two {A : Type} (l : list A) (k : nat) (x y : A) :
  nth_error l k = Some x -> nth_error l (S k) = Some y ->
  l = firstn k l +++ [x; y] +++ skipn (S (S k)) l.
Proof.
  revert l. induction k as [|k IH]; intros [|z l] Hx Hy; try discriminate.
  - destruct l as [|z' l]; [discriminate|]. cbn in Hx, Hy.
    injection Hx as ->. injection Hy as ->. reflexivity.
  - cbn [nth_error] in Hx, Hy. cbn [firstn skipn app]. f_equal. now apply IH.
Qed.



(** The guard of the policy and the line that opens its function. *)
Lemma lines_of_policy_guard (origin : string) (url : URL) (options : WpHmrOptions)
    (p : string) :
  policy_of options = Some p ->
  concat (fragments origin url options) =
  (header_lines +++ detector_fragment options +++ probe_fragment url options +++
   injector_fragment origin options) +++
  [guard_of "vite_hmr_csp"; function_line "vite_hmr_csp" "void"] +++
  (policy_body p +++ [TAB ++ "}"; "}"; POLICY_REGISTRATION; ""]).
Proof.
  intros H. unfold fragments, policy_fragment, guarded. rewrite H.
  cbn [concat app]. rewrite <- ?app_assoc, ?app_nil_r. reflexivity.
Qed.

Lemma two_lines_included (origin : string) (url : URL) (options : WpHmrOptions)
    (k : nat) (x y : string) :
  nth_error (buildLines origin url options) k = Some x ->
  nth_error (buildLines origin url options) (S k) = Some y ->
  1 <= count_occurrences (join LF [x; y]) (join LF (buildLines origin url options)).
Proof.
  intros Hx Hy. apply includes_count.
  - cbn [join]. destruct x; discriminate.
  - rewrite (nth_error_two _ _ _ _ Hx Hy) at 1. apply includes_join_block. discriminate.
Qed.

(** Each function that is emitted has its guard directly before the
    line that opens it. *)
Lemma guard_before_function (origin : string) (url : URL) (options : WpHmrOptions)
    (f : string * string) :
  In f (emitted_functions options) ->
  1 <= count_occurrences (join LF [guard_of (fst f); function_line (fst f) (snd f)])
         (join LF (buildLines origin url options)).
Proof.
  unfold emitted_functions. intros H. apply in_app_or in H as [H|H].
  - destruct H as [<-|[<-|[<-|[]]]].
    + apply (two_lines_included _ _ _ 6); rewrite buildLines_fragments; reflexivity.
    + apply (two_lines_included _ _ _ 17); rewrite buildLines_fragments; reflexivity.
    + apply (two_lines_included _ _ _ 30); rewrite buildLines_fragments; reflexivity.
  - destruct (policy_of options) as [p|] eqn:Ep; [|destruct H].
    destruct H as [<-|[]]. apply includes_count; [discriminate|].
    eapply includes_block; [apply (lines_of_policy_guard _ _ _ _ Ep) | discriminate].
Qed.

Lemma expected_function_word (options : WpHmrOptions) :
  expected_count "function" options = 2 * length (emitted_functions options).
Proof.
  needle_constants "function". unfold emitted_functions. rewrite length_app.
  destruct (events_of options); destruct (policy_of options);
    destruct (csp options) as [[[|]|]|]; cbn [length]; lia.
Qed.

(** When no interpolated value holds the word [function], each place of
    that word in the output is in the guard of an emitted function or
    in the line that opens the function after its guard. *)
Lemma function_word_covered (origin : string) (url : URL) (options : WpHmrOptions) :
  inputs_free_of "function" origin url options = true ->
  forall a b,
    join LF (buildLines origin url options) = a ++ "function" ++ b ->
    exists f c,
      In f (emitted_functions options) /\
      (c = guard_setting f \/ c = definition_setting f) /\
      ends_with a (before c) = true /\ starts_with b (after c) = true.
Proof.
  intros Hf a b E.
  destruct (every_occurrence "function" (join LF (buildLines origin url options))
              (flat_map (fun f => [guard_setting f; definition_setting f])
                 (emitted_functions options)))
    with (a := a) (b := b) as (c & Hin & Ha & Hb).
  - discriminate.
  - unfold emitted_functions. destruct (policy_of options); vm_compute; reflexivity.
  - rewrite (inputs_free_count "function") by (exact Hf || (vm_compute; reflexivity)).
    rewrite expected_function_word.
    assert (Hl : forall l : list (string * string),
              length (flat_map (fun f => [guard_setting f; definition_setting f]) l) =
              2 * length l)
      by (induction l as [|f l IH]; cbn [flat_map length app] in *; lia).
    rewrite <- Hl. apply list_sum_ones.
    apply Forall_forall. intros c Hc. apply in_flat_map in Hc as (f & Hin & Hc).
    pose proof (guard_before_function origin url options f Hin) as H.
      assert (Et : forall c', In c' [guard_setting f; definition_setting f] ->
                   in_setting "function" c' =
                   join LF [guard_of (fst f); function_line (fst f) (snd f)]).
      { intros c' [<-|[<-|[]]]; unfold in_setting, guard_setting, definition_setting,
          guard_of, function_line; cbn [before after join];
          rewrite ?append_assoc; reflexivity. }
      now rewrite (Et c Hc).
  - exact E.
  - apply in_flat_map in Hin as (f & Hin & Hc). exists f, c.
    split; [exact Hin|]. split; [|now split].
    destruct Hc as [<-|[<-|[]]]; auto.
Qed.




Section Guards.

Variable new_URL : string -> option URL.

(** C5, as amended.  Every function the generator emits stands inside
    its existence guard: [vite_hmr_is_dev], [vite_hmr_is_running] and
    [vite_hmr_inject] always, and [vite_hmr_csp], which is emitted
    unless [csp === false], in that case.  When no interpolated value
    holds the word [function], the output holds that word twice for
    each of these functions and nowhere else: each place of the word is
    in the guard of an emitted function, directly before the line that
    opens the function, or in that line, directly after the guard. *)
Theorem defined_functions_are_guarded
    (origin : string) (url : URL) (options : WpHmrOptions) :
  new_URL origin = Some url ->
  exists php,
    buildPhp new_URL origin options = Some php /\
    php =
    join LF
      (header_lines +++
       guarded "vite_hmr_is_dev" "bool"
         (detector_body (tld_list (DEFAULT_TLDS +++ patterns_of options))) +++
       [""] +++
       guarded "vite_hmr_is_running" "bool"
         (probe_body (hostname url) (resolved_port url)
            (number_to_string (ttl_of options))) +++
       [""] +++
       guarded "vite_hmr_inject" "void"
         (injector_body origin (events_of options)) +++
       [INJECT_REGISTRATION; ""] +++
       match policy_of options with
       | Some policy =>
           guarded "vite_hmr_csp" "void" (policy_body policy) +++
           [POLICY_REGISTRATION; ""]
       | None => []
       end) /\
    includes php (guard_of "vite_hmr_is_dev") = true /\
    includes php (guard_of "vite_hmr_is_running") = true /\
    includes php (guard_of "vite_hmr_inject") = true /\
    (csp options <> Some (CspBool false) ->
     includes php (guard_of "vite_hmr_csp") = true) /\
    (csp options = Some (CspBool false) -> policy_of options = None) /\
    (inputs_free_of "function" origin url options = true ->
     count_occurrences "function" php = 2 * length (emitted_functions options) /\
     forall a b,
       php = a ++ "function" ++ b ->
       exists name ret,
         In (name, ret) (emitted_functions options) /\
         (ends_with a "if ( ! " = true /\
          starts_with b
            ("_exists( '" ++ name ++ "' ) ) {" ++ LF ++ function_line name ret) = true \/
          ends_with a (guard_of name ++ LF ++ TAB) = true /\
          starts_with b (" " ++ name ++ "(): " ++ ret ++ " {") = true)).
Proof.
  intros Hu. exists (join LF (buildLines origin url options)).
  split; [now apply buildPhp_some|]. split.
  - rewrite buildLines_fragments. f_equal.
    unfold fragments, detector_fragment, probe_fragment, injector_fragment, policy_fragment.
    destruct (policy_of options); cbn [concat app]; rewrite <- ?app_assoc, ?app_nil_r;
      reflexivity.
  - destruct (guards_present origin url options) as (H1 & H2 & H3).
    repeat (split; [assumption|]). split; [|split].
    + intros Hc.
      assert (Hp : exists p, policy_of options = Some p).
      { unfold policy_of. destruct (csp options) as [[[|]|s]|]; eauto. congruence. }
      destruct Hp as [p Hp]. apply includes_join. rewrite buildLines_fragments.
      rewrite (lines_around_policy_registration _ _ _ _ Hp).
      apply in_or_app. left. do 4 (apply in_or_app; right). now left.
    + intros Hc. unfold policy_of. now rewrite Hc.
    + intros Hf. split.
      * rewrite (inputs_free_count "function") by (exact Hf || (vm_compute; reflexivity)).
        apply expected_function_word.
      * intros a b E.
        destruct (function_word_covered origin url options Hf a b E)
          as ([name ret] & c & Hin & Hc & Ha & Hb).
        exists name, ret. split; [exact Hin|].
        destruct Hc as [->| ->]; [left | right]; split; assumption.
Qed.


End Guards.

Lemma defined_functions_are_guarded_witness :
  test_URL "http://localhost:5173" = Some localhost_5173 /\
  inputs_free_of "function" "http://localhost:5173" localhost_5173 opts = true /\
  exists php,
    buildPhp test_URL "http://localhost:5173" opts = Some php /\
    includes php (guard_of "vite_hmr_is_dev") = true /\
    includes php (guard_of "vite_hmr_is_running") = true /\
    includes php (guard_of "vite_hmr_inject") = true /\
    includes php (guard_of "vite_hmr_csp") = true /\
    count_occurrences "function" php = 8.
Proof.
  split; [reflexivity|]. split; [vm_compute; reflexivity|].
  destruct (defined_functions_are_guarded test_URL "http://localhost:5173" localhost_5173
              opts eq_refl) as (php & E & _ & H1 & H2 & H3 & H4 & _ & H5).
  exists php. repeat (split; [assumption|]). split; [apply H4; discriminate|].
  destruct H5 as [H5 _]; [vm_compute; reflexivity | exact H5].
Defined.


(** A pattern that closes the quote can carry a function of its own,
    which then stands outside every guard: what is said of each place
    of the word [function] needs the interpolated values to be free of
    it. *)
Example function_from_a_pattern :
  let options :=
    with_csp (CspBool false)
      (with_devPatterns ["x' ] as $t ) {} function vite_hmr_csp(): void {} foreach ( [ 'y"]
         opts) in
  inputs_free_of "function" "http://localhost:5173" localhost_5173 options = false /\
  exists php,
    buildPhp test_URL "http://localhost:5173" options = Some php /\
    count_occurrences "function vite_hmr_" php = 4 /\
    count_occurrences "function_exists( 'vite_hmr_" php = 3.
Proof.
  split; [vm_compute; reflexivity|].
  eexists; (split; [reflexivity|]); split; vm_compute; reflexivity.
Qed.
